(** * Confluence search collator: a shallow embedding of
    [ConfluenceCollatorFactory.ts] and of the declarations of [types.ts].

    JavaScript strings are modelled by [string]; every character stands for
    one code unit below 256.  A promise is modelled by the outcome it settles
    with, together with the observable events (HTTP requests, catalog
    queries, log lines) that settling it produces, in submission order. *)

From Equations Require Import Equations.
From Stdlib Require Import List Arith ZArith Lia Bool Ascii String.
From Stdlib Require Import Numbers.DecimalString.
From Stdlib Require Import Zify ZifyNat Permutation.
Import ListNotations.

Open Scope string_scope.
Open Scope list_scope.

(** ** Strings *)

Module Js.

(** Decimal rendering of a non-negative integer, as in a template literal. *)
Definition showNat (n : nat) : string :=
  NilEmpty.string_of_uint (Nat.to_uint n).

(** [Array.prototype.toString] on an array of strings: joined with commas. *)
Definition toString (items : list string) : string :=
  String.concat "," items.

(** The double quote character, as a string. *)
Definition quote : string := String (ascii_of_nat 34) EmptyString.

(** Truthiness of a string value: the empty string is falsy. *)
Definition truthy (s : string) : bool :=
  match s with
  | EmptyString => false
  | String _ _ => true
  end.

(** Truthiness of a possibly undefined string property. *)
Definition truthyField (field : option string) : bool :=
  match field with
  | None => false
  | Some s => truthy s
  end.

(** White space and line terminators among the code units below 256:
    TAB, LF, VT, FF, CR, SP and NBSP. *)
Definition isWhiteSpace (c : ascii) : bool :=
  let n := nat_of_ascii c in
  (((9 <=? n) && (n <=? 13)) || (n =? 32) || (n =? 160))%nat.

Fixpoint trimStart (s : string) : string :=
  match s with
  | EmptyString => EmptyString
  | String c rest => if isWhiteSpace c then trimStart rest else s
  end.

Fixpoint trimEnd (s : string) : string :=
  match s with
  | EmptyString => EmptyString
  | String c rest =>
      match trimEnd rest with
      | EmptyString => if isWhiteSpace c then EmptyString else String c EmptyString
      | kept => String c kept
      end
  end.

(** [String.prototype.trim]. *)
Definition trim (s : string) : string := trimEnd (trimStart s).

(** [String.prototype.split] with a one-character separator: the pieces
    between the separators, the empty string giving one empty piece. *)
Fixpoint split (sep : ascii) (s : string) : list string :=
  match s with
  | EmptyString => [EmptyString]
  | String c rest =>
      if Ascii.eqb c sep then EmptyString :: split sep rest
      else match split sep rest with
           | piece :: pieces => String c piece :: pieces
           | [] => [String c EmptyString]
           end
  end.

(** UTF-8 bytes of a string of code units below 256. *)
Fixpoint utf8 (s : string) : list nat :=
  match s with
  | EmptyString => []
  | String c rest =>
      let n := nat_of_ascii c in
      if (n <? 128)%nat then n :: utf8 rest
      else (192 + n / 64) :: (128 + n mod 64) :: utf8 rest
  end.

Definition base64Alphabet : string :=
  "ABCDEFGHIJKLMNOPQRSTUVWXYZabcdefghijklmnopqrstuvwxyz0123456789+/".

Definition base64Digit (n : nat) : ascii :=
  match String.get n base64Alphabet with
  | Some c => c
  | None => "="%char
  end.

(** Standard base64 with padding, as [Buffer.toString('base64')]. *)
Fixpoint base64 (bytes : list nat) : string :=
  match bytes with
  | [] => EmptyString
  | [a] =>
      String (base64Digit (a / 4))
        (String (base64Digit ((a mod 4) * 16)) "==")
  | [a; b] =>
      String (base64Digit (a / 4))
        (String (base64Digit ((a mod 4) * 16 + b / 16))
           (String (base64Digit ((b mod 16) * 4)) "="))
  | a :: b :: c :: rest =>
      String (base64Digit (a / 4))
        (String (base64Digit ((a mod 4) * 16 + b / 16))
           (String (base64Digit ((b mod 16) * 4 + c / 64))
              (String (base64Digit (c mod 64)) (base64 rest))))
  end.

End Js.

(** ** The tag pattern of [stripHtml]

    The regular expression [/(<([^>]+)>)/gi] has no letters, so the [i] flag
    changes nothing.  A match at the head of a string is a [<], then one or
    more characters other than [>], then a [>]; the class cannot consume a
    [>], so the greedy match ends at the first [>] and backtracking never
    finds another one. *)

Module Tag.

Definition isGt (c : ascii) : bool := Ascii.eqb c ">"%char.
Definition isLt (c : ascii) : bool := Ascii.eqb c "<"%char.

(** [[^>]+>] at the head of [s]: the rest of [s] after the closing [>].
    [seen] tells whether the class has consumed a character yet. *)
Fixpoint body (seen : bool) (s : string) : option string :=
  match s with
  | EmptyString => None
  | String c rest =>
      if isGt c then (if seen then Some rest else None)
      else body true rest
  end.

(** The whole pattern anchored at the head of [s]. *)
Definition matchAt (s : string) : option string :=
  match s with
  | EmptyString => None
  | String c rest => if isLt c then body false rest else None
  end.

(** [RegExp.prototype.test]: the pattern matches somewhere in [s]. *)
Fixpoint test (s : string) : bool :=
  match s with
  | EmptyString => false
  | String c rest =>
      match matchAt s with
      | Some _ => true
      | None => test rest
      end
  end.

(** The same, as the spec words it: [s] contains a substring [<...>] with
    a non-empty interior free of [>]. *)
Definition occursIn (s : string) : Prop :=
  exists before inner after,
    s = (before ++ String "<" (inner ++ String ">" after))%string
    /\ inner <> EmptyString
    /\ (forall c, In c (list_ascii_of_string inner) -> c <> ">"%char).

End Tag.

(** A value together with the equation that names it, for the [with]
    clauses below. *)
Definition inspect {A : Type} (a : A) : {b : A | a = b} := exist _ a eq_refl.

(** [input.replace(/(<([^>]+)>)/gi, '')]: scan from the left; where the
    pattern matches, drop the match and go on after it; elsewhere keep the
    character and go on at the next one. *)
Equations? stripHtml (input : string) : string by wf (String.length input) lt :=
  stripHtml EmptyString := EmptyString;
  stripHtml (String c rest) with inspect (Tag.matchAt (String c rest)) := {
    | exist _ (Some after) found := stripHtml after;
    | exist _ None _ := String c (stripHtml rest) }.
Proof.
  assert (shorter : forall seen s r,
             Tag.body seen s = Some r -> String.length r < String.length s).
  { intros seen s; revert seen.
    induction s as [|d s IH]; intros seen r; simpl; [discriminate|].
    destruct (Tag.isGt d).
    - destruct seen; [|discriminate]. intros [= <-]. lia.
    - intros H. apply IH in H. lia. }
  simpl in found. destruct (Tag.isLt c); [|discriminate].
  apply shorter in found. simpl. lia.
Qed.

(** ** Data model ([types.ts]) *)

Definition ANNOTATION_OVO_CONFLUENCE_SPACES : string := "ovo.com/confluence-spaces".
Definition RESOURCE_TYPE_CONFLUENCE_SPACES : string := "confluence-spaces".

(** [status] is read through a truthiness test by the code, so the model
    lets the property be missing. *)
Module ConfluenceDocumentMetadata.
Record links := { self : string; webui : string }.
Record t := { title : string; status : option string; _links : links }.
End ConfluenceDocumentMetadata.

(** [results] and [_links.next] are tested for presence by the code. *)
Module ConfluenceDocumentList.
Record links := { next : option string }.
Record t := {
  results : option (list ConfluenceDocumentMetadata.t);
  _links : links }.
End ConfluenceDocumentList.

Module ConfluenceDocument.
Record Storage := { value : string }.
Record Body := { storage : Storage }.
Record By := { publicName : string }.
Record Version := { by_ : By; when : string; friendlyWhen : string }.
Record SpaceLinks := { webui : string }.
Record Space := { key : string; name : string; links : SpaceLinks }.
Record t := {
  title : string;
  status : option string;
  _links : ConfluenceDocumentMetadata.links;
  body : Body;
  version : Version;
  space : Space;
  ancestors : list ConfluenceDocumentMetadata.t }.
End ConfluenceDocument.

Module IndexableAncestorRef.
Record t := { title : string; location : string }.
End IndexableAncestorRef.

Module IndexableConfluenceDocument.
Record t := {
  title : string;
  text : string;
  location : string;
  spaceKey : string;
  spaceName : string;
  ancestors : list IndexableAncestorRef.t;
  lastModifiedBy : string;
  lastModified : string;
  lastModifiedFriendly : string }.
End IndexableConfluenceDocument.

(** ** Errors, responses and the catalog *)

Inductive JsError :=
| Error (message : string)
| TypeError (message : string)
| FetchError (message : string).

Definition errorMessage (e : JsError) : string :=
  match e with
  | Error m | TypeError m | FetchError m => m
  end.

(** A synchronous call that may throw. *)
Definition Result (A : Type) : Type := JsError + A.

(** What [res.json()] decodes: one of the two shapes the wiki API serves. *)
Inductive JsonBody :=
| JsonList (list_ : ConfluenceDocumentList.t)
| JsonDocument (document : ConfluenceDocument.t).

Record Request := {
  url : string;
  method : string;
  headers : list (string * string) }.

(** A response: [text] is what [res.text()] settles with (it rejects when
    the body cannot be read), [json] what [res.json()] settles with (it
    rejects also when the body is not JSON). *)
Record Response := {
  status : nat;
  statusText : string;
  text : Result string;
  json : Result JsonBody }.

(** [res.ok]: the status is in the range 200-299. *)
Definition ok (res : Response) : bool :=
  ((200 <=? status res) && (status res <=? 299))%nat.

Inductive FilterValue := FilterString (s : string) | CATALOG_FILTER_EXISTS.

Definition EntityFilter : Type := list (string * FilterValue).

Record EntityMeta := { annotations : option (list (string * string)) }.
Record Entity := { metadata : EntityMeta }.

Record CatalogApi := {
  getEntities : list EntityFilter -> Result (list Entity) }.

(** Property lookup in an object used as a dictionary. *)
Fixpoint lookup (k : string) (o : list (string * string)) : option string :=
  match o with
  | [] => None
  | (k', v) :: o' => if String.eqb k k' then Some v else lookup k o'
  end.

(** ** Promises with observable events *)

Inductive Level := Info | Debug | Warn.

Inductive Event :=
| Fetch (request : Request)
| GetEntities (filter : list EntityFilter)
| Log (level : Level) (message : string) (meta : list string).

(** How a promise settles; [Running] is a loop that has not finished within
    the fuel it was given. *)
Inductive Outcome (A : Type) :=
| Resolved (value : A)
| Rejected (reason : JsError)
| Running.
Arguments Resolved {A} value.
Arguments Rejected {A} reason.
Arguments Running {A}.

Definition Async (A : Type) : Type := list Event * Outcome A.

Definition events {A} (p : Async A) : list Event := fst p.
Definition outcome {A} (p : Async A) : Outcome A := snd p.

Definition ret {A} (a : A) : Async A := ([], Resolved a).
Definition throw {A} (e : JsError) : Async A := ([], Rejected e).
Definition running {A} : Async A := ([], Running).

Definition bind {A B} (p : Async A) (k : A -> Async B) : Async B :=
  match p with
  | (t, Resolved a) => let (t', o) := k a in (t ++ t', o)
  | (t, Rejected e) => (t, Rejected e)
  | (t, Running) => (t, Running)
  end.

Notation "x <- p ;; k" := (bind p (fun x => k))
  (at level 61, p at next level, right associativity).
Notation "p ;; k" := (bind p (fun _ => k))
  (at level 61, right associativity).

Definition log (level : Level) (message : string) (meta : list string) : Async unit :=
  ([Log level message meta], Resolved tt).

(** A synchronous result, thrown or returned inside an async function. *)
Definition settle {A} (r : Result A) : Async A :=
  match r with
  | inl e => throw e
  | inr a => ret a
  end.

(** A call to an outside service: the event is observed, and the promise
    settles with the answer. *)
Definition call {A} (event : Event) (answer : Result A) : Async A :=
  ([event],
   match answer with
   | inl e => Rejected e
   | inr a => Resolved a
   end).

(** [promise.catch(onRejected)]. *)
Definition catch {A} (p : Async A) (onRejected : JsError -> Async A) : Async A :=
  match p with
  | (t, Rejected e) => let (t', o) := onRejected e in (t ++ t', o)
  | _ => p
  end.

(** [try { return p } catch (err) { handler } rest] in an async function,
    [p] being the promise of an async call.  Creating [p] does not throw and
    [p] is returned without [await], so the [try] block is left before [p]
    settles: the function's promise settles as [p], and neither [handler]
    nor [rest] runs. *)
Definition tryReturn {A} (p : Async A)
    (handler : JsError -> Async unit) (rest : Async A) : Async A := p.

(** [Promise.all] on promises that are already running: every one of them
    runs to its end; the result has their values in order, or the reason of
    the first one rejected.  The events of the promises are listed one
    promise after the other, in the order of the list: that is the order in
    which the promises were started, not the order in which their log lines
    come out when several of them run at once. *)
Fixpoint all {A} (promises : list (Async A)) : Async (list A) :=
  match promises with
  | [] => ret []
  | (t, o) :: rest =>
      let (ts, os) := all rest in
      (t ++ ts,
       match o, os with
       | Resolved a, Resolved l => Resolved (a :: l)
       | Resolved _, Rejected e => Rejected e
       | Resolved _, Running => Running
       | Rejected e, _ => Rejected e
       | Running, _ => Running
       end)
  end.

(** [pLimit(concurrency)] of the p-limit package: it refuses a bound below
    one; the function it returns runs the given functions, at most
    [concurrency] at a time, each returned promise settling as its function
    does.  Which events of different tasks interleave is not modelled. *)
Definition pLimit (concurrency : Z) : Result (forall A, Async A -> Async A) :=
  if (0 <? concurrency)%Z then inr (fun _ fn => fn)
  else inl (TypeError "Expected `concurrency` to be a number from 1 and up").

(** ** The collator

    The parallelism limit is a count: the model takes it in [Z]. *)

Record Auth := { username : string; password : string }.

Record ConfluenceCollatorOptions := {
  opt_parallelismLimit : Z;
  opt_wikiUrl : string;
  opt_spaces : list string;
  opt_auth : Auth;
  opt_catalogClient : option CatalogApi }.

Record ConfluenceCollatorFactory := {
  catalogClient : option CatalogApi;
  parallelismLimit : Z;
  wikiUrl : string;
  spaces : list string;
  auth : Auth }.

(** The constructor: an object is always truthy, so a given client is kept. *)
Definition new (options : ConfluenceCollatorOptions) : ConfluenceCollatorFactory :=
  {| catalogClient := opt_catalogClient options;
     parallelismLimit := opt_parallelismLimit options;
     wikiUrl := opt_wikiUrl options;
     spaces := opt_spaces options;
     auth := opt_auth options |}.

(** The [Config] reader: [getString] and [getStringArray] throw on a
    missing key. *)
Record Config := {
  getString : string -> Result string;
  getStringArray : string -> Result (list string) }.

Record FromConfigOptions := {
  given_parallelismLimit : option Z;
  given_catalogClient : option CatalogApi }.

(** [options.parallelismLimit || 15]: zero is falsy, like [undefined]. *)
Definition orDefault (given : option Z) (default : Z) : Z :=
  match given with
  | None => default
  | Some n => if (n =? 0)%Z then default else n
  end.

Definition fromConfig (config : Config) (options : FromConfigOptions)
  : Result ConfluenceCollatorFactory :=
  let limit := orDefault (given_parallelismLimit options) 15%Z in
  match getString config "confluence.wikiUrl" with
  | inl e => inl e
  | inr wiki =>
  match getStringArray config "confluence.spaces" with
  | inl e => inl e
  | inr spaceKeys =>
  match getString config "confluence.auth.username" with
  | inl e => inl e
  | inr user =>
  match getString config "confluence.auth.password" with
  | inl e => inl e
  | inr pass =>
      inr (new {| opt_parallelismLimit := limit;
                  opt_wikiUrl := wiki;
                  opt_spaces := spaceKeys;
                  opt_auth := {| username := user; password := pass |};
                  opt_catalogClient := given_catalogClient options |})
  end end end end.

Module Meta := ConfluenceDocumentMetadata.
Module DocList := ConfluenceDocumentList.
Module Doc := ConfluenceDocument.
Module Ref := IndexableAncestorRef.
Module Out := IndexableConfluenceDocument.

Section Collator.

(** The wiki as the transport sees it: a request is answered by a response,
    or the transport fails.  The same request gets the same answer
    throughout a run. *)
Variable fetch : Request -> Result Response.

Variable this : ConfluenceCollatorFactory.

Definition authorization : string :=
  ("Basic " ++
   Js.base64 (Js.utf8 (username (auth this) ++ ":" ++ password (auth this))))%string.

Definition getRequest (requestUrl : string) : Request :=
  {| url := requestUrl;
     method := "get";
     headers := [("Authorization", authorization)] |}.

Definition get (requestUrl : string) : Async JsonBody :=
  res <- call (Fetch (getRequest requestUrl)) (fetch (getRequest requestUrl)) ;;
  if negb (ok res) then
    body <- settle (text res) ;;
    log Warn "non-ok response from confluence"
        [requestUrl; Js.showNat (status res); body] ;;
    throw (Error ("Request failed with " ++ Js.showNat (status res)
                    ++ " " ++ statusText res)%string)
  else settle (json res).

(** [data.status !== 'current'] on a property that may be missing. *)
Definition isCurrent (status : option string) : bool :=
  match status with
  | None => false
  | Some s => String.eqb s "current"
  end.

Definition ancestorRef (ancestor : Meta.t) : Ref.t :=
  {| Ref.title := Meta.title ancestor;
     Ref.location := (wikiUrl this ++ Meta.webui (Meta._links ancestor))%string |}.

(** A page list read as a page has no [status] property. *)
Definition getDocumentInfo (documentUrl : string) : Async (list Out.t) :=
  log Debug ("fetching document content " ++ documentUrl)%string [] ;;
  data <- get (documentUrl ++ "?expand=body.storage,space,ancestors,version")%string ;;
  match data with
  | JsonList _ => ret []
  | JsonDocument data =>
      if negb (Js.truthyField (Doc.status data)) || negb (isCurrent (Doc.status data))
      then ret []
      else
        let ancestors :=
          [ {| Ref.title := Doc.name (Doc.space data);
               Ref.location :=
                 (wikiUrl this ++ Doc.webui (Doc.links (Doc.space data)))%string |} ] in
        let ancestors := ancestors ++ map ancestorRef (Doc.ancestors data) in
        ret [ {| Out.title := Doc.title data;
                 Out.text := stripHtml (Doc.value (Doc.storage (Doc.body data)));
                 Out.location :=
                   (wikiUrl this ++ Meta.webui (Doc._links data))%string;
                 Out.spaceKey := Doc.key (Doc.space data);
                 Out.spaceName := Doc.name (Doc.space data);
                 Out.ancestors := ancestors;
                 Out.lastModifiedBy := Doc.publicName (Doc.by_ (Doc.version data));
                 Out.lastModified := Doc.when (Doc.version data);
                 Out.lastModifiedFriendly := Doc.friendlyWhen (Doc.version data) |} ]
  end.

(** The [while (next)] loop of [getDocumentsFromSpace]; one unit of fuel per
    iteration.  A page read as a page list has no [results] property. *)
Fixpoint paginate (fuel : nat) (requestUrl : string) (documentsList : list string)
  : Async (list string) :=
  match fuel with
  | O => running
  | S fuel' =>
      data <- get requestUrl ;;
      match data with
      | JsonDocument _ => ret documentsList
      | JsonList data =>
          match DocList.results data with
          | None => ret documentsList
          | Some results =>
              let documentsList :=
                documentsList ++ map (fun result => Meta.self (Meta._links result)) results in
              match DocList.next (DocList._links data) with
              | Some next =>
                  if Js.truthy next
                  then paginate fuel' (wikiUrl this ++ next)%string documentsList
                  else ret documentsList
              | None => ret documentsList
              end
          end
      end
  end.

Definition spaceUrl (space : string) : string :=
  (wikiUrl this ++ "/rest/api/content?limit=1000&status=current&spaceKey=" ++ space)%string.

Definition getDocumentsFromSpace (fuel : nat) (space : string) : Async (list string) :=
  log Info ("exploring space " ++ space)%string [] ;;
  paginate fuel (spaceUrl space) [].

Fixpoint getDocumentsFromSpaces_from (fuel : nat) (spaces : list string)
    (documentsList : list string) : Async (list string) :=
  match spaces with
  | [] => ret documentsList
  | space :: rest =>
      found <- getDocumentsFromSpace fuel space ;;
      getDocumentsFromSpaces_from fuel rest (documentsList ++ found)
  end.

Definition getDocumentsFromSpaces (fuel : nat) (spaces : list string) : Async (list string) :=
  getDocumentsFromSpaces_from fuel spaces [].

Definition spacesFilter : EntityFilter :=
  [ ("kind", FilterString "Resource");
    ("spec.type", FilterString RESOURCE_TYPE_CONFLUENCE_SPACES);
    (("metadata.annotations." ++ ANNOTATION_OVO_CONFLUENCE_SPACES)%string,
     CATALOG_FILTER_EXISTS) ].

Definition annotationLine (shown : string) : string :=
  ("metadata.annotations." ++ ANNOTATION_OVO_CONFLUENCE_SPACES ++ ": " ++ shown)%string.

(** The callback of [items.map] in [getSpaces], run on the entities in
    order; [spaces] is the array the callback pushes to.  Reading a property
    of [undefined] throws. *)
Fixpoint collectSpaces (items : list Entity) (spaces : list string) : Async (list string) :=
  match items with
  | [] => ret spaces
  | entity :: rest =>
      match annotations (metadata entity) with
      | None =>
          throw (TypeError "Cannot read properties of undefined (reading 'ovo.com/confluence-spaces')")
      | Some dict =>
          match lookup ANNOTATION_OVO_CONFLUENCE_SPACES dict with
          | None =>
              log Debug (annotationLine "undefined") [] ;;
              throw (TypeError "Cannot read properties of undefined (reading 'split')")
          | Some annotation =>
              log Debug (annotationLine annotation) [] ;;
              let spaceList := map Js.trim (Js.split "," annotation) in
              collectSpaces rest (spaces ++ spaceList)
          end
      end
  end.

Definition getSpaces : Async (list string) :=
  match catalogClient this with
  | Some client =>
      log Info ("Using Resources of type " ++ RESOURCE_TYPE_CONFLUENCE_SPACES
                  ++ " to index Confluence")%string [] ;;
      items <- call (GetEntities [spacesFilter]) (getEntities client [spacesFilter]) ;;
      log Debug ("Have found " ++ Js.showNat (List.length items)
                   ++ " Resources of type confluence-spaces")%string [] ;;
      spaces <- collectSpaces items [] ;;
      log Info ("Indexing the following spaces " ++ Js.toString spaces)%string [] ;;
      ret spaces
  | None => ret (spaces this)
  end.

(** One entry of [documentsInfo]: the limited task of a page. *)
Definition documentTask (limit : forall A, Async A -> Async A) (document : string)
  : Async (list Out.t) :=
  limit _
    (tryReturn (getDocumentInfo document)
       (fun err =>
          log Warn ("error while indexing document " ++ Js.quote ++ document ++ Js.quote)%string
              [errorMessage err])
       (ret [])).

(** One entry of [safePromises]. *)
Definition safePromise (promise : Async (list Out.t)) : Async (list Out.t) :=
  catch promise (fun error => log Warn (errorMessage error) [] ;; ret []).

(** The generator [execute]: the documents it yields, in order, when it
    returns; a rejection is the run aborting, before any document. *)
Definition execute (fuel : nat) : Async (list Out.t) :=
  spacesList <- getSpaces ;;
  documentsList <- getDocumentsFromSpaces fuel spacesList ;;
  limit <- settle (pLimit (parallelismLimit this)) ;;
  let documentsInfo := map (documentTask limit) documentsList in
  let safePromises := map safePromise documentsInfo in
  gathered <- all safePromises ;;
  ret (List.concat gathered).

End Collator.

(** ** Vocabulary of the properties *)

(** The request of [getDocumentInfo] for a page. *)
Definition detailUrl (documentUrl : string) : string :=
  (documentUrl ++ "?expand=body.storage,space,ancestors,version")%string.

(** The entity carries the spaces annotation, with this value. *)
Definition annotatedWith (entity : Entity) (value : string) : Prop :=
  exists dict,
    annotations (metadata entity) = Some dict
    /\ lookup ANNOTATION_OVO_CONFLUENCE_SPACES dict = Some value.

(** An annotation value split on commas, each token trimmed. *)
Definition tokens (value : string) : list string :=
  map Js.trim (Js.split "," value).

(** The URLs requested, in order, among the events of a run. *)
Definition fetched (trace : list Event) : list string :=
  flat_map (fun event =>
              match event with
              | Fetch request => [url request]
              | _ => []
              end) trace.

Section Vocabulary.

Variable fetch : Request -> Result Response.
Variable this : ConfluenceCollatorFactory.

(** What a page brings to the output: the documents of its transform when
    the transform succeeds, nothing when it fails. *)
Definition contribution (document : string) : list Out.t :=
  match outcome (getDocumentInfo fetch this document) with
  | Resolved documents => documents
  | Rejected _ => []
  | Running => []
  end.

(** The wiki answers [requestUrl] with a 2xx response that decodes to the
    page list [page]. *)
Definition serves (requestUrl : string) (page : DocList.t) : Prop :=
  exists res,
    fetch (getRequest this requestUrl) = inr res
    /\ ok res = true
    /\ json res = inr (JsonList page).

Definition selfLinks (page : DocList.t) : list string :=
  match DocList.results page with
  | Some results => map (fun result => Meta.self (Meta._links result)) results
  | None => []
  end.

(** The pagination pages of a listing that starts at a URL, each with the
    URL it is served at: every page but the last has results and a
    [next] link, which leads to the page after it; the last page has no
    [results] field or no [next] link. *)
Inductive pagination : string -> list (string * DocList.t) -> Prop :=
| pagination_no_results requestUrl page :
    serves requestUrl page ->
    DocList.results page = None ->
    pagination requestUrl [(requestUrl, page)]
| pagination_no_next requestUrl page :
    serves requestUrl page ->
    DocList.results page <> None ->
    Js.truthyField (DocList.next (DocList._links page)) = false ->
    pagination requestUrl [(requestUrl, page)]
| pagination_next requestUrl page next rest :
    serves requestUrl page ->
    DocList.results page <> None ->
    DocList.next (DocList._links page) = Some next ->
    Js.truthy next = true ->
    pagination (wikiUrl this ++ next)%string rest ->
    pagination requestUrl ((requestUrl, page) :: rest).

End Vocabulary.

(** ** Vocabulary of the properties of strings *)

Module Text.

(** [s] is [t] with some characters left out. *)
Inductive Subseq : string -> string -> Prop :=
| subseq_empty : Subseq EmptyString EmptyString
| subseq_skip c s t : Subseq s t -> Subseq s (String c t)
| subseq_keep c s t : Subseq s t -> Subseq (String c s) (String c t).

Definition contains (c : ascii) (s : string) : Prop :=
  In c (list_ascii_of_string s).

Definition allWhiteSpace (s : string) : Prop :=
  forall c, contains c s -> Js.isWhiteSpace c = true.

Definition firstChar (s : string) : option ascii :=
  match s with
  | EmptyString => None
  | String c _ => Some c
  end.

Fixpoint lastChar (s : string) : option ascii :=
  match s with
  | EmptyString => None
  | String c EmptyString => Some c
  | String _ rest => lastChar rest
  end.

Definition notWhiteSpace (c : option ascii) : Prop :=
  match c with
  | Some c => Js.isWhiteSpace c = false
  | None => True
  end.

(** Neither the first nor the last character is white space. *)
Definition trimmed (s : string) : Prop :=
  notWhiteSpace (firstChar s) /\ notWhiteSpace (lastChar s).

(** The number of occurrences of a character. *)
Fixpoint count (c : ascii) (s : string) : nat :=
  match s with
  | EmptyString => 0
  | String d rest => (if Ascii.eqb d c then 1 else 0) + count c rest
  end.

End Text.

(** ** What splitting and trimming mean

    Stated without the functions that do it. *)

Module Means.

(** [token] is [piece] without the white space at its two ends. *)
Definition trimOf (piece token : string) : Prop :=
  exists before after,
    piece = (before ++ token ++ after)%string
    /\ Text.allWhiteSpace before
    /\ Text.allWhiteSpace after
    /\ Text.trimmed token.

(** [pieces] are the parts of [value] between the occurrences of [sep]:
    joined by [sep] they give [value] back, and none contains [sep]. *)
Definition splitOf (sep : ascii) (value : string) (pieces : list string) : Prop :=
  pieces <> []
  /\ String.concat (String sep EmptyString) pieces = value
  /\ Forall (fun piece => ~ Text.contains sep piece) pieces.

(** [found] are the parts of [value] between its commas, each without the
    white space at its ends, in their order. *)
Definition tokensOf (value : string) (found : list string) : Prop :=
  exists pieces, splitOf ","%char value pieces /\ Forall2 trimOf pieces found.

End Means.

(** ** Reading a base64 text back *)

Module Base64.

Fixpoint indexIn (c : ascii) (s : string) : option nat :=
  match s with
  | EmptyString => None
  | String d rest => if Ascii.eqb c d then Some 0 else option_map S (indexIn c rest)
  end.

(** The value of a digit of the alphabet. *)
Definition digitValue (c : ascii) : option nat := indexIn c Js.base64Alphabet.

Definition isPad (c : ascii) : bool := Ascii.eqb c "="%char.

(** The bytes that a padded base64 text stands for: four digits give three
    bytes; padding is accepted in the last group only. *)
Fixpoint decode (s : string) : option (list nat) :=
  match s with
  | EmptyString => Some []
  | String c0 (String c1 (String c2 (String c3 rest))) =>
      match digitValue c0, digitValue c1 with
      | Some d0, Some d1 =>
          let b0 := d0 * 4 + d1 / 16 in
          if isPad c2 then
            match rest with
            | EmptyString => if isPad c3 then Some [b0] else None
            | String _ _ => None
            end
          else
            match digitValue c2 with
            | None => None
            | Some d2 =>
                let b1 := (d1 mod 16) * 16 + d2 / 4 in
                if isPad c3 then
                  match rest with
                  | EmptyString => Some [b0; b1]
                  | String _ _ => None
                  end
                else
                  match digitValue c3, decode rest with
                  | Some d3, Some bytes =>
                      Some (b0 :: b1 :: ((d2 mod 4) * 64 + d3) :: bytes)
                  | _, _ => None
                  end
            end
      | _, _ => None
      end
  | _ => None
  end.

End Base64.

(** ** Vocabulary of the properties of runs *)

(** The catalog queries, in order, among the events of a run. *)
Definition catalogQueries (trace : list Event) : list (list EntityFilter) :=
  flat_map (fun event =>
              match event with
              | GetEntities filter => [filter]
              | _ => []
              end) trace.

(** The warnings logged, in order, among the events of a run. *)
Definition warnings (trace : list Event) : list (string * list string) :=
  flat_map (fun event =>
              match event with
              | Log Warn message meta => [(message, meta)]
              | _ => []
              end) trace.

(** The requests sent, in order, among the events of a run. *)
Definition requests (trace : list Event) : list Request :=
  flat_map (fun event =>
              match event with
              | Fetch request => [request]
              | _ => []
              end) trace.

(** The request is a GET whose only header is an [Authorization] header:
    [Basic], a space, and a base64 text that stands for the UTF-8 bytes of
    the user name, a colon and the password of the collator. *)
Definition authorized (this : ConfluenceCollatorFactory) (request : Request) : Prop :=
  method request = "get"
  /\ exists payload,
       headers request = [("Authorization", ("Basic " ++ payload)%string)]
       /\ Base64.decode payload =
          Some (Js.utf8 (username (auth this) ++ ":" ++ password (auth this))).

(** All the requests among the events are requests of [get]. *)
Definition fromGet (this : ConfluenceCollatorFactory) (trace : list Event) : Prop :=
  Forall (fun request => exists requestUrl, request = getRequest this requestUrl)
         (requests trace).

(** The entity has no spaces annotation. *)
Definition unannotated (entity : Entity) : Prop :=
  match annotations (metadata entity) with
  | None => True
  | Some dict => lookup ANNOTATION_OVO_CONFLUENCE_SPACES dict = None
  end.

Section RunVocabulary.

Variable fetch : Request -> Result Response.
Variable this : ConfluenceCollatorFactory.

(** The events of the transform phase for a page: those of its transform,
    then the warning of [safePromises] when the transform rejects. *)
Definition pageEvents (document : string) : list Event :=
  events (getDocumentInfo fetch this document)
  ++ match outcome (getDocumentInfo fetch this document) with
     | Rejected e => [Log Warn (errorMessage e) []]
     | _ => []
     end.

(** A listing whose pages are served one after the other, up to a request
    that fails: the pages served, each with its URL, the URL of the failing
    request and its error. *)
Inductive brokenPagination : string -> list (string * DocList.t) -> string -> JsError -> Prop :=
| broken_here requestUrl e :
    outcome (get fetch this requestUrl) = Rejected e ->
    brokenPagination requestUrl [] requestUrl e
| broken_later requestUrl page next rest failing e :
    serves fetch this requestUrl page ->
    DocList.results page <> None ->
    DocList.next (DocList._links page) = Some next ->
    Js.truthy next = true ->
    brokenPagination (wikiUrl this ++ next)%string rest failing e ->
    brokenPagination requestUrl ((requestUrl, page) :: rest) failing e.

End RunVocabulary.

(** ** A small wiki to run the collator on

    The space [ENG] is listed on two pagination pages.  Page 1 answers 500
    to the detail request, page 2 is a current page with one ancestor, page 3
    is archived, and page 4 answers 200 with a body that is not JSON.  The
    listing of the space [EMPTY] has no [results] field, and the listing of
    the space [LOOP] has a [next] link that leads back to itself. *)

Module Fixture.

Definition wiki : string := "https://wiki.example".

Definition config : Config :=
  {| getString := fun k =>
       if String.eqb k "confluence.wikiUrl" then inr wiki
       else if String.eqb k "confluence.auth.username" then inr "user"
       else if String.eqb k "confluence.auth.password" then inr "pass"
       else inl (Error ("Missing required config value at '" ++ k ++ "'")%string);
     getStringArray := fun k =>
       if String.eqb k "confluence.spaces" then inr ["ENG"]
       else inl (Error ("Missing required config value at '" ++ k ++ "'")%string) |}.

Definition collator : ConfluenceCollatorFactory :=
  {| catalogClient := None;
     parallelismLimit := 15;
     wikiUrl := wiki;
     spaces := ["ENG"];
     auth := {| username := "user"; password := "pass" |} |}.

Definition selfLink (id : string) : string :=
  (wiki ++ "/rest/api/content/" ++ id)%string.

Definition meta (id name : string) (state : string) : Meta.t :=
  {| Meta.title := name;
     Meta.status := Some state;
     Meta._links := {| Meta.self := selfLink id;
                       Meta.webui := ("/spaces/ENG/pages/" ++ id)%string |} |}.

Definition listPage1 : DocList.t :=
  {| DocList.results := Some [meta "1" "Broken" "current"; meta "2" "Guide" "current"];
     DocList._links := {| DocList.next := Some "/rest/api/content?start=2" |} |}.

Definition listPage2 : DocList.t :=
  {| DocList.results := Some [meta "3" "Old" "current"];
     DocList._links := {| DocList.next := None |} |}.

Definition listEmpty : DocList.t :=
  {| DocList.results := None;
     DocList._links := {| DocList.next := Some "/rest/api/content?start=2" |} |}.

Definition listLoop : DocList.t :=
  {| DocList.results := Some [meta "5" "Again" "current"];
     DocList._links :=
       {| DocList.next :=
            Some "/rest/api/content?limit=1000&status=current&spaceKey=LOOP" |} |}.

Definition detail (id name state html : string) (parents : list Meta.t) : Doc.t :=
  {| Doc.title := name;
     Doc.status := Some state;
     Doc._links := Meta._links (meta id name state);
     Doc.body := {| Doc.storage := {| Doc.value := html |} |};
     Doc.version := {| Doc.by_ := {| Doc.publicName := "Ada" |};
                       Doc.when := "2023-01-02T03:04:05.000Z";
                       Doc.friendlyWhen := "Jan 02, 2023" |};
     Doc.space := {| Doc.key := "ENG";
                     Doc.name := "Engineering";
                     Doc.links := {| Doc.webui := "/spaces/ENG" |} |};
     Doc.ancestors := parents |}.

Definition guide : Doc.t :=
  detail "2" "Guide" "current" "<p>Hello <b>World</b></p>" [meta "0" "Home" "current"].

Definition old : Doc.t := detail "3" "Old" "archived" "<p>gone</p>" [].

Definition expand : string := "?expand=body.storage,space,ancestors,version".

Definition answer (code : nat) (reason : string) (decoded : Result JsonBody) : Response :=
  {| status := code; statusText := reason; text := inr ""; json := decoded |}.

Definition notJson : Result JsonBody :=
  inl (FetchError "invalid json response body").

Definition fetch (request : Request) : Result Response :=
  let u := url request in
  if String.eqb u (spaceUrl collator "ENG") then
    inr (answer 200 "OK" (inr (JsonList listPage1)))
  else if String.eqb u (wiki ++ "/rest/api/content?start=2") then
    inr (answer 200 "OK" (inr (JsonList listPage2)))
  else if String.eqb u (spaceUrl collator "EMPTY") then
    inr (answer 200 "OK" (inr (JsonList listEmpty)))
  else if String.eqb u (spaceUrl collator "LOOP") then
    inr (answer 200 "OK" (inr (JsonList listLoop)))
  else if String.eqb u (selfLink "1" ++ expand) then
    inr (answer 500 "Internal Server Error" notJson)
  else if String.eqb u (selfLink "2" ++ expand) then
    inr (answer 200 "OK" (inr (JsonDocument guide)))
  else if String.eqb u (selfLink "3" ++ expand) then
    inr (answer 200 "OK" (inr (JsonDocument old)))
  else if String.eqb u (selfLink "4" ++ expand) then
    inr (answer 200 "OK" notJson)
  else inr (answer 404 "Not Found" notJson).

Definition guideDocument : Out.t :=
  {| Out.title := "Guide";
     Out.text := "Hello World";
     Out.location := "https://wiki.example/spaces/ENG/pages/2";
     Out.spaceKey := "ENG";
     Out.spaceName := "Engineering";
     Out.ancestors :=
       [ {| Ref.title := "Engineering";
            Ref.location := "https://wiki.example/spaces/ENG" |};
         {| Ref.title := "Home";
            Ref.location := "https://wiki.example/spaces/ENG/pages/0" |} ];
     Out.lastModifiedBy := "Ada";
     Out.lastModified := "2023-01-02T03:04:05.000Z";
     Out.lastModifiedFriendly := "Jan 02, 2023" |}.

Definition annotated (value : string) : Entity :=
  {| metadata :=
       {| annotations := Some [("team", "search");
                               (ANNOTATION_OVO_CONFLUENCE_SPACES, value)] |} |}.

Definition catalog : CatalogApi :=
  {| getEntities := fun _ => inr [annotated "Eng, Sales"; annotated "Marketing"] |}.

Definition catalogCollator : ConfluenceCollatorFactory :=
  {| catalogClient := Some catalog;
     parallelismLimit := 1;
     wikiUrl := wiki;
     spaces := ["ENG"];
     auth := {| username := "user"; password := "pass" |} |}.

End Fixture.

(** ** More of the small wiki

    The space [BROKEN] has a first pagination page whose [next] link is
    answered 404.  One of the entities of the second catalog has no spaces
    annotation, and the third catalog cannot be reached. *)

Module Sample.

Definition listBroken : DocList.t :=
  {| DocList.results := Some [Fixture.meta "7" "Lost" "current"];
     DocList._links := {| DocList.next := Some "/rest/api/content?start=9" |} |}.

(** A 502 response whose body cannot be read. *)
Definition cutOff : Response :=
  {| status := 502;
     statusText := "Bad Gateway";
     text := inl (FetchError "Premature close");
     json := inl (FetchError "Premature close") |}.

Definition fetch (request : Request) : Result Response :=
  if String.eqb (url request) (spaceUrl Fixture.collator "BROKEN") then
    inr (Fixture.answer 200 "OK" (inr (JsonList listBroken)))
  else if String.eqb (url request) (detailUrl (Fixture.selfLink "8")) then
    inr cutOff
  else Fixture.fetch request.

(** The fixture's collator, for other spaces. *)
Definition explorer (spaceKeys : list string) : ConfluenceCollatorFactory :=
  {| catalogClient := None;
     parallelismLimit := 15;
     wikiUrl := Fixture.wiki;
     spaces := spaceKeys;
     auth := auth Fixture.collator |}.

Definition bare : Entity :=
  {| metadata := {| annotations := Some [("team", "search")] |} |}.

Definition withCatalog (catalog : CatalogApi) : ConfluenceCollatorFactory :=
  {| catalogClient := Some catalog;
     parallelismLimit := 15;
     wikiUrl := Fixture.wiki;
     spaces := ["ENG"];
     auth := auth Fixture.collator |}.

Definition patchyCatalog : CatalogApi :=
  {| getEntities := fun _ => inr [Fixture.annotated "Eng"; bare; Fixture.annotated "Ops"] |}.

(** Annotation values with white space (a tab, spaces, a no-break space, a
    line feed) on both sides of the tokens, and a trailing comma. *)
Definition padded : string :=
  String (ascii_of_nat 9)
    (" Eng " ++ String (ascii_of_nat 160)
       (", Sales" ++ String (ascii_of_nat 10) " ")).

Definition paddedCatalog : CatalogApi :=
  {| getEntities := fun _ =>
       inr [Fixture.annotated padded; Fixture.annotated "Marketing ,"] |}.

Definition unreachable : JsError := FetchError "request to the catalog failed".

Definition downCatalog : CatalogApi :=
  {| getEntities := fun _ => inl unreachable |}.

End Sample.

(** * Properties *)

(** ** Tag stripping *)

Lemma stripHtml_cons c rest :
  stripHtml (String c rest) =
  match Tag.matchAt (String c rest) with
  | Some after => stripHtml after
  | None => String c (stripHtml rest)
  end.
Proof.
  rewrite stripHtml_equation_2.
  destruct (inspect (Tag.matchAt (String c rest))) as [[after|] e];
    simp stripHtml; rewrite e; reflexivity.
Qed.

Lemma body_shorter seen s rest :
  Tag.body seen s = Some rest -> String.length rest < String.length s.
Proof.
  revert seen; induction s as [|c s IH]; intros seen; simpl; [discriminate|].
  destruct (Tag.isGt c).
  - destruct seen; [|discriminate]. intros [= <-]. lia.
  - intros H. apply IH in H. lia.
Qed.

Lemma matchAt_shorter s rest :
  Tag.matchAt s = Some rest -> String.length rest < String.length s.
Proof.
  destruct s as [|c s]; simpl; [discriminate|].
  destruct (Tag.isLt c); [|discriminate].
  intros H. apply body_shorter in H. lia.
Qed.

(** Without a [>] ahead, the class runs to the end of the string and the
    pattern fails whatever it has consumed. *)
Lemma body_true_None seen s : Tag.body true s = None -> Tag.body seen s = None.
Proof.
  revert seen; induction s as [|c s IH]; intros seen; simpl; [reflexivity|].
  destruct (Tag.isGt c); [discriminate|]. intros H; exact H.
Qed.

Lemma body_true_None_test s : Tag.body true s = None -> Tag.test s = false.
Proof.
  induction s as [|c s IH]; [reflexivity|].
  cbn [Tag.body]. destruct (Tag.isGt c) eqn:Hgt; [discriminate|].
  intros H. cbn [Tag.test Tag.matchAt].
  rewrite (body_true_None false s H).
  destruct (Tag.isLt c); apply IH, H.
Qed.

(** Where the pattern matches nowhere, the replacement changes nothing. *)
Lemma stripHtml_fixed s : Tag.test s = false -> stripHtml s = s.
Proof.
  induction s as [|c s IH]; [reflexivity|].
  rewrite stripHtml_cons. cbn [Tag.test].
  destruct (Tag.matchAt (String c s)); [discriminate|].
  intros H. rewrite (IH H). reflexivity.
Qed.

Lemma body_false_stripHtml s :
  Tag.body false s = None -> Tag.body false (stripHtml s) = None.
Proof.
  destruct s as [|c s]; [reflexivity|].
  cbn [Tag.body]. destruct (Tag.isGt c) eqn:Hgt.
  - intros _. rewrite stripHtml_cons. cbn [Tag.matchAt].
    assert (Tag.isLt c = false) as ->.
    { unfold Tag.isGt, Tag.isLt in *. apply Ascii.eqb_eq in Hgt. subst c. reflexivity. }
    cbn [Tag.body]. rewrite Hgt. reflexivity.
  - intros H. rewrite stripHtml_fixed.
    + cbn [Tag.body]. rewrite Hgt. exact H.
    + apply body_true_None_test. cbn [Tag.body]. rewrite Hgt. exact H.
Qed.

(** The output of the replacement has no match left. *)
Lemma stripHtml_test s : Tag.test (stripHtml s) = false.
Proof.
  remember (String.length s) as n eqn:Hn.
  revert s Hn. induction n as [n IH] using lt_wf_ind. intros s Hn.
  destruct s as [|c s]; [reflexivity|].
  rewrite stripHtml_cons.
  destruct (Tag.matchAt (String c s)) as [after|] eqn:Hm.
  - apply (IH (String.length after)); [|reflexivity].
    subst n. apply matchAt_shorter, Hm.
  - cbn [Tag.test].
    assert (Tag.matchAt (String c (stripHtml s)) = None) as ->.
    { cbn [Tag.matchAt] in *. destruct (Tag.isLt c); [|reflexivity].
      apply body_false_stripHtml, Hm. }
    apply (IH (String.length s)); [|reflexivity].
    subst n. simpl. lia.
Qed.

(** The boolean test against the spec's wording of a match. *)
Lemma body_inner seen inner after :
  (forall c, In c (list_ascii_of_string inner) -> c <> ">"%char) ->
  Tag.body seen (inner ++ String ">" after) =
  if seen || Js.truthy inner then Some after else None.
Proof.
  revert seen; induction inner as [|c inner IH]; intros seen Hfree.
  - simpl. rewrite orb_false_r. reflexivity.
  - cbn [append Tag.body Js.truthy].
    assert (Tag.isGt c = false) as ->.
    { apply Ascii.eqb_neq, Hfree. left; reflexivity. }
    rewrite IH; [|intros d Hd; apply Hfree; right; exact Hd].
    rewrite orb_true_r. reflexivity.
Qed.

Lemma body_Some seen s after :
  Tag.body seen s = Some after ->
  exists inner,
    s = (inner ++ String ">" after)%string
    /\ (forall c, In c (list_ascii_of_string inner) -> c <> ">"%char)
    /\ (seen = false -> inner <> EmptyString).
Proof.
  revert seen; induction s as [|c s IH]; intros seen; cbn [Tag.body]; [discriminate|].
  destruct (Tag.isGt c) eqn:Hgt.
  - destruct seen; [|discriminate]. intros [= <-].
    apply Ascii.eqb_eq in Hgt. subst c.
    exists EmptyString. repeat split; [intros c []|discriminate].
  - intros H. destruct (IH true H) as (inner & -> & Hfree & _).
    exists (String c inner). repeat split.
    + intros d [<-|Hd]; [apply Ascii.eqb_neq, Hgt|apply Hfree, Hd].
    + discriminate.
Qed.

Lemma test_append before s : Tag.test s = true -> Tag.test (before ++ s) = true.
Proof.
  intros H. induction before as [|c before IH]; [exact H|].
  cbn [append Tag.test]. rewrite IH.
  destruct (Tag.matchAt (String c (before ++ s))); reflexivity.
Qed.

Lemma test_occursIn s : Tag.test s = true <-> Tag.occursIn s.
Proof.
  split.
  - induction s as [|c s IH]; [discriminate|].
    cbn [Tag.test]. destruct (Tag.matchAt (String c s)) as [after|] eqn:Hm.
    + intros _. cbn [Tag.matchAt] in Hm.
      destruct (Tag.isLt c) eqn:Hlt; [|discriminate].
      apply Ascii.eqb_eq in Hlt. subst c.
      destruct (body_Some _ _ _ Hm) as (inner & -> & Hfree & Hne).
      exists EmptyString, inner, after. repeat split; auto.
    + intros H. destruct (IH H) as (before & inner & after & -> & Hne & Hfree).
      exists (String c before), inner, after. repeat split; auto.
  - intros (before & inner & after & -> & Hne & Hfree).
    apply test_append. cbn [Tag.test Tag.matchAt Tag.isLt Ascii.eqb].
    cbn. rewrite (body_inner false inner after Hfree).
    destruct inner; [contradiction|reflexivity].
Qed.

Lemma stripHtml_clean s : ~ Tag.occursIn (stripHtml s).
Proof.
  intros H. apply test_occursIn in H. rewrite stripHtml_test in H. discriminate.
Qed.

(** ** Strings: [split] and [trim] *)

Lemma contains_append c s t :
  Text.contains c (s ++ t) <-> Text.contains c s \/ Text.contains c t.
Proof.
  unfold Text.contains. induction s as [|d s IH]; cbn.
  - split; [auto|intros [[]|H]; exact H].
  - rewrite IH. tauto.
Qed.

Lemma split_not_empty sep s : Js.split sep s <> [].
Proof.
  destruct s as [|c s]; cbn; [discriminate|].
  destruct (Ascii.eqb c sep); [discriminate|].
  destruct (Js.split sep s); discriminate.
Qed.

Lemma split_concat sep s :
  String.concat (String sep EmptyString) (Js.split sep s) = s.
Proof.
  induction s as [|c s IH]; [reflexivity|].
  cbn [Js.split]. destruct (Ascii.eqb c sep) eqn:Hc.
  - apply Ascii.eqb_eq in Hc. subst c.
    pose proof (split_not_empty sep s) as Hne.
    destruct (Js.split sep s) as [|piece pieces] eqn:Hs; [contradiction|].
    cbn [String.concat append] in *. rewrite IH. reflexivity.
  - pose proof (split_not_empty sep s) as Hne.
    destruct (Js.split sep s) as [|piece pieces] eqn:Hs; [contradiction|].
    destruct pieces as [|piece' pieces].
    + cbn [String.concat] in *. subst s. reflexivity.
    + rewrite <- IH. reflexivity.
Qed.

Lemma split_pieces_free sep s piece :
  In piece (Js.split sep s) -> ~ Text.contains sep piece.
Proof.
  revert piece. induction s as [|c s IH]; intros piece; cbn [Js.split].
  - intros [<-|[]] [].
  - destruct (Ascii.eqb c sep) eqn:Hc.
    + intros [<-|Hin]; [intros []|apply IH, Hin].
    + pose proof (split_not_empty sep s) as Hne.
      destruct (Js.split sep s) as [|first pieces]; [contradiction|].
      intros [<-|Hin].
      * intros [->|Hin]; [rewrite Ascii.eqb_refl in Hc; discriminate|].
        apply (IH first); [left; reflexivity|exact Hin].
      * apply IH. right. exact Hin.
Qed.

Lemma split_length sep s :
  List.length (Js.split sep s) = S (Text.count sep s).
Proof.
  induction s as [|c s IH]; [reflexivity|].
  cbn [Js.split Text.count]. destruct (Ascii.eqb c sep).
  - cbn [List.length]. rewrite IH. reflexivity.
  - pose proof (split_not_empty sep s) as Hne.
    destruct (Js.split sep s) as [|first pieces]; [contradiction|].
    cbn [List.length] in *. rewrite IH. reflexivity.
Qed.

Lemma trimStart_spec s :
  exists before,
    s = (before ++ Js.trimStart s)%string
    /\ Text.allWhiteSpace before
    /\ Text.notWhiteSpace (Text.firstChar (Js.trimStart s)).
Proof.
  induction s as [|c s (before & Hs & Hw & Hfirst)].
  - exists EmptyString. repeat split. intros c [].
  - cbn [Js.trimStart]. destruct (Js.isWhiteSpace c) eqn:Hc.
    + exists (String c before). repeat split.
      * cbn [append]. rewrite <- Hs. reflexivity.
      * intros d [<-|Hd]; [exact Hc|apply Hw, Hd].
      * exact Hfirst.
    + exists EmptyString. repeat split; [intros d []|exact Hc].
Qed.

Lemma trimEnd_spec s :
  exists after,
    s = (Js.trimEnd s ++ after)%string
    /\ Text.allWhiteSpace after
    /\ Text.notWhiteSpace (Text.lastChar (Js.trimEnd s))
    /\ (Text.notWhiteSpace (Text.firstChar s) ->
        Text.notWhiteSpace (Text.firstChar (Js.trimEnd s))).
Proof.
  induction s as [|c s (after & Hs & Hw & Hlast & _)].
  - exists EmptyString. repeat split. intros c [].
  - cbn [Js.trimEnd]. destruct (Js.trimEnd s) as [|d kept] eqn:Hkept.
    + cbn [append] in Hs. subst after.
      destruct (Js.isWhiteSpace c) eqn:Hc.
      * exists (String c s). repeat split.
        intros e [<-|He]; [exact Hc|]. apply Hw, He.
      * exists s. repeat split; [exact Hw|exact Hc|intros _; exact Hc].
    + exists after. repeat split.
      * cbn [append]. f_equal. exact Hs.
      * exact Hw.
      * exact Hlast.
      * intros H. exact H.
Qed.

(** [trim] takes white space, and nothing else, off both ends. *)
Lemma trim_spec s :
  exists before after,
    s = (before ++ Js.trim s ++ after)%string
    /\ Text.allWhiteSpace before
    /\ Text.allWhiteSpace after
    /\ Text.trimmed (Js.trim s).
Proof.
  destruct (trimStart_spec s) as (before & Hs & Hbefore & Hfirst).
  destruct (trimEnd_spec (Js.trimStart s)) as (after & Ht & Hafter & Hlast & Hkeep).
  exists before, after. unfold Js.trim. repeat split; auto.
  rewrite <- Ht. exact Hs.
Qed.

(** ** Promises *)

Lemma bind_resolved {A B} (p : Async A) (k : A -> Async B) a :
  outcome p = Resolved a ->
  bind p k = (events p ++ events (k a), outcome (k a)).
Proof.
  destruct p as [t o]; simpl; intros ->. destruct (k a); reflexivity.
Qed.

Lemma bind_rejected {A B} (p : Async A) (k : A -> Async B) e :
  outcome p = Rejected e -> bind p k = (events p, Rejected e).
Proof. destruct p as [t o]; simpl; intros ->. reflexivity. Qed.

Lemma bind_running {A B} (p : Async A) (k : A -> Async B) :
  outcome p = Running -> bind p k = (events p, Running).
Proof. destruct p as [t o]; simpl; intros ->. reflexivity. Qed.

Lemma bind_resolved_inv {A B} (p : Async A) (k : A -> Async B) b :
  outcome (bind p k) = Resolved b ->
  exists a, outcome p = Resolved a /\ outcome (k a) = Resolved b.
Proof.
  destruct p as [t [a|e|]]; simpl; try discriminate.
  destruct (k a) as [t' o] eqn:Hk. simpl. intros ->.
  exists a. rewrite Hk. split; reflexivity.
Qed.

Lemma bind_log {B} level message meta (k : unit -> Async B) :
  bind (log level message meta) k =
  (Log level message meta :: events (k tt), outcome (k tt)).
Proof. unfold log. simpl. destruct (k tt); reflexivity. Qed.

Lemma bind_call {A B} event (answer : Result A) (k : A -> Async B) :
  bind (call event answer) k =
  match answer with
  | inl e => ([event], Rejected e)
  | inr a => (event :: events (k a), outcome (k a))
  end.
Proof. unfold call. destruct answer as [e|a]; simpl; [|destruct (k a)]; reflexivity. Qed.

(** ** The fetch wrapper *)

Section GetFacts.

Variable fetch : Request -> Result Response.
Variable this : ConfluenceCollatorFactory.

Lemma get_outcome requestUrl :
  outcome (get fetch this requestUrl) =
  match fetch (getRequest this requestUrl) with
  | inl e => Rejected e
  | inr res =>
      if ok res then
        match json res with
        | inl e => Rejected e
        | inr decoded => Resolved decoded
        end
      else
        match text res with
        | inl e => Rejected e
        | inr _ => Rejected (Error ("Request failed with " ++ Js.showNat (status res)
                                      ++ " " ++ statusText res)%string)
        end
  end.
Proof.
  unfold get. rewrite bind_call.
  destruct (fetch (getRequest this requestUrl)) as [e|res]; [reflexivity|].
  destruct (ok res); simpl.
  - destruct (json res); reflexivity.
  - destruct (text res); reflexivity.
Qed.

Lemma get_fetched requestUrl :
  fetched (events (get fetch this requestUrl)) = [requestUrl].
Proof.
  unfold get. rewrite bind_call.
  destruct (fetch (getRequest this requestUrl)) as [e|res]; [reflexivity|].
  destruct (ok res); simpl.
  - destruct (json res); reflexivity.
  - destruct (text res); reflexivity.
Qed.

Lemma get_not_running requestUrl : outcome (get fetch this requestUrl) <> Running.
Proof.
  rewrite get_outcome.
  destruct (fetch (getRequest this requestUrl)) as [e|res]; [discriminate|].
  destruct (ok res); [destruct (json res)|destruct (text res)]; discriminate.
Qed.

End GetFacts.

(** C8, as amended.  [get] resolves, with the decoded body, exactly when the
    request is answered by a 2xx response whose body decodes as JSON.  On a
    response outside 200-299 whose body can be read it rejects with the
    error whose message carries the status code and the status text; when
    reading that body fails, it rejects with the error of the read.  It
    rejects exactly when the transport fails, the response is not ok, or the
    body of an ok response does not decode. *)
Theorem get_settles fetch this requestUrl :
  (forall decoded,
      outcome (get fetch this requestUrl) = Resolved decoded <->
      exists res, fetch (getRequest this requestUrl) = inr res
                  /\ ok res = true /\ json res = inr decoded)
  /\ (forall res body,
         fetch (getRequest this requestUrl) = inr res ->
         ok res = false ->
         text res = inr body ->
         outcome (get fetch this requestUrl) =
         Rejected (Error ("Request failed with " ++ Js.showNat (status res)
                            ++ " " ++ statusText res)%string))
  /\ (forall res e,
         fetch (getRequest this requestUrl) = inr res ->
         ok res = false ->
         text res = inl e ->
         outcome (get fetch this requestUrl) = Rejected e)
  /\ ((exists e, outcome (get fetch this requestUrl) = Rejected e) <->
      ((exists e, fetch (getRequest this requestUrl) = inl e)
       \/ exists res, fetch (getRequest this requestUrl) = inr res
                      /\ (ok res = false \/ exists e, json res = inl e))).
Proof.
  rewrite get_outcome.
  destruct (fetch (getRequest this requestUrl)) as [e|res] eqn:Hfetch.
  - split; [|split; [|split]].
    + intros decoded. split; [discriminate|intros (res & [=] & _)].
    + intros res body [=].
    + intros res e' [=].
    + split; [intros _; left; exists e; reflexivity|intros _; exists e; reflexivity].
  - destruct (ok res) eqn:Hok; [destruct (json res) as [e|body] eqn:Hjson|].
    + split; [|split; [|split]].
      * intros decoded. split; [discriminate|].
        intros (res' & [= <-] & _ & Hj). congruence.
      * intros res' body [= <-]. congruence.
      * intros res' e' [= <-]. congruence.
      * split; [|intros _; exists e; reflexivity].
        intros _. right. exists res. split; [reflexivity|]. right. exists e. exact Hjson.
    + split; [|split; [|split]].
      * intros decoded. split.
        -- intros [= <-]. exists res. auto.
        -- intros (res' & [= <-] & _ & Hj). congruence.
      * intros res' body' [= <-]. congruence.
      * intros res' e' [= <-]. congruence.
      * split; [intros (e & [=])|].
        intros [(e & [=])|(res' & [= <-] & [Hf|(e & He)])]; congruence.
    + split; [|split; [|split]].
      * intros decoded. split.
        -- destruct (text res); discriminate.
        -- intros (res' & [= <-] & Ht & _). congruence.
      * intros res' body [= <-] _ ->. reflexivity.
      * intros res' e' [= <-] _ ->. reflexivity.
      * split; [intros _; right; exists res; auto|].
        intros _. destruct (text res); eexists; reflexivity.
Qed.

(** ** The page transformer *)

Section TransformFacts.

Variable fetch : Request -> Result Response.
Variable this : ConfluenceCollatorFactory.

Lemma isCurrent_spec status : isCurrent status = true <-> status = Some "current".
Proof.
  destruct status as [s|]; simpl.
  - rewrite String.eqb_eq. split; [intros ->; reflexivity|intros [= ->]; reflexivity].
  - split; discriminate.
Qed.

Lemma getDocumentInfo_rejected documentUrl e :
  outcome (get fetch this (detailUrl documentUrl)) = Rejected e ->
  outcome (getDocumentInfo fetch this documentUrl) = Rejected e.
Proof.
  intros H. unfold getDocumentInfo. rewrite bind_log. cbn [outcome snd].
  rewrite (bind_rejected _ _ e H). reflexivity.
Qed.

Lemma getDocumentInfo_filtered documentUrl data :
  outcome (get fetch this (detailUrl documentUrl)) = Resolved (JsonDocument data) ->
  Doc.status data <> Some "current" ->
  outcome (getDocumentInfo fetch this documentUrl) = Resolved [].
Proof.
  intros H Hstatus. unfold getDocumentInfo. rewrite bind_log. cbn [outcome snd].
  rewrite (bind_resolved _ _ _ H). cbn [snd].
  destruct (isCurrent (Doc.status data)) eqn:Hc.
  - apply isCurrent_spec in Hc. contradiction.
  - rewrite orb_true_r. reflexivity.
Qed.

Lemma getDocumentInfo_current documentUrl data :
  outcome (get fetch this (detailUrl documentUrl)) = Resolved (JsonDocument data) ->
  Doc.status data = Some "current" ->
  exists document,
    outcome (getDocumentInfo fetch this documentUrl) = Resolved [document]
    /\ Out.text document = stripHtml (Doc.value (Doc.storage (Doc.body data)))
    /\ Out.ancestors document =
       {| Ref.title := Doc.name (Doc.space data);
          Ref.location := (wikiUrl this ++ Doc.webui (Doc.links (Doc.space data)))%string |}
       :: map (fun ancestor =>
                 {| Ref.title := Meta.title ancestor;
                    Ref.location :=
                      (wikiUrl this ++ Meta.webui (Meta._links ancestor))%string |})
              (Doc.ancestors data).
Proof.
  intros H Hstatus. unfold getDocumentInfo. rewrite bind_log. cbn [outcome snd].
  rewrite (bind_resolved _ _ _ H). cbn [snd].
  rewrite Hstatus. cbn [Js.truthyField Js.truthy isCurrent String.eqb negb orb].
  replace ("current" =? "current")%string with true by reflexivity.
  cbn [negb orb]. eexists. split; [reflexivity|]. split; reflexivity.
Qed.

Lemma getDocumentInfo_not_running documentUrl :
  outcome (getDocumentInfo fetch this documentUrl) <> Running.
Proof.
  unfold getDocumentInfo. rewrite bind_log. cbn [outcome snd].
  destruct (outcome (get fetch this (detailUrl documentUrl))) as [data|e|] eqn:H.
  - rewrite (bind_resolved _ _ _ H). cbn [snd].
    destruct data as [l|data]; [discriminate|].
    destruct (negb _ || negb _); discriminate.
  - rewrite (bind_rejected _ _ e H). discriminate.
  - apply get_not_running in H. contradiction.
Qed.

(** A document comes out of the transform of a current page only, with the
    stripped stored body as its text. *)
Lemma getDocumentInfo_resolved_inv documentUrl documents document :
  outcome (getDocumentInfo fetch this documentUrl) = Resolved documents ->
  In document documents ->
  exists data,
    outcome (get fetch this (detailUrl documentUrl)) = Resolved (JsonDocument data)
    /\ Doc.status data = Some "current"
    /\ documents = [document]
    /\ Out.text document = stripHtml (Doc.value (Doc.storage (Doc.body data))).
Proof.
  intros H Hin.
  destruct (outcome (get fetch this (detailUrl documentUrl))) as [[l|data]|e|] eqn:Hget.
  - unfold getDocumentInfo in H. rewrite bind_log in H. cbn [outcome snd] in H.
    rewrite (bind_resolved _ _ _ Hget) in H. cbn in H.
    injection H as <-. destruct Hin.
  - assert (Doc.status data = Some "current" \/ Doc.status data <> Some "current")
      as [Hs|Hs].
    { destruct (isCurrent (Doc.status data)) eqn:Hc.
      - left. apply isCurrent_spec, Hc.
      - right. intros Hs. apply isCurrent_spec in Hs. congruence. }
    + destruct (getDocumentInfo_current _ _ Hget Hs) as (d & Hd & Htext & _).
      rewrite Hd in H. injection H as <-. destruct Hin as [<-|[]].
      exists data. auto.
    + rewrite (getDocumentInfo_filtered _ _ Hget Hs) in H.
      injection H as <-. destruct Hin.
  - rewrite (getDocumentInfo_rejected _ _ Hget) in H. discriminate.
  - apply get_not_running in Hget. contradiction.
Qed.

End TransformFacts.

(** ** The page enumerator *)

Section EnumerateFacts.

Variable fetch : Request -> Result Response.
Variable this : ConfluenceCollatorFactory.

Lemma fetched_app t1 t2 : fetched (t1 ++ t2) = fetched t1 ++ fetched t2.
Proof. unfold fetched. apply flat_map_app. Qed.

Lemma serves_get requestUrl page :
  serves fetch this requestUrl page ->
  outcome (get fetch this requestUrl) = Resolved (JsonList page).
Proof.
  intros (res & Hfetch & Hok & Hjson).
  rewrite get_outcome, Hfetch, Hok, Hjson. reflexivity.
Qed.

(** One iteration of the loop, on a page that is served. *)
Lemma paginate_step fuel requestUrl documentsList page :
  serves fetch this requestUrl page ->
  paginate fetch this (S fuel) requestUrl documentsList =
  let continue :=
    match DocList.results page with
    | None => ret documentsList
    | Some results =>
        let documentsList :=
          documentsList ++ map (fun result => Meta.self (Meta._links result)) results in
        match DocList.next (DocList._links page) with
        | Some next =>
            if Js.truthy next
            then paginate fetch this fuel (wikiUrl this ++ next)%string documentsList
            else ret documentsList
        | None => ret documentsList
        end
    end in
  (events (get fetch this requestUrl) ++ events continue, outcome continue).
Proof.
  intros Hserves. cbn [paginate].
  rewrite (bind_resolved _ _ _ (serves_get _ _ Hserves)). reflexivity.
Qed.

Lemma paginate_spec requestUrl pages :
  pagination fetch this requestUrl pages ->
  forall fuel documentsList,
    List.length pages <= fuel ->
    outcome (paginate fetch this fuel requestUrl documentsList) =
    Resolved (documentsList ++ flat_map selfLinks (map snd pages))
    /\ fetched (events (paginate fetch this fuel requestUrl documentsList)) =
       map fst pages.
Proof.
  induction 1 as [requestUrl page Hserves Hnone
                 |requestUrl page Hserves Hsome Hnext
                 |requestUrl page next rest Hserves Hsome Hnext Htruthy Hrest IH];
    intros [|fuel] documentsList Hfuel; cbn [List.length] in Hfuel; try lia;
    rewrite (paginate_step _ _ _ _ Hserves); cbn [outcome events fst snd map flat_map];
    rewrite fetched_app, get_fetched; unfold selfLinks at 1.
  - rewrite Hnone. rewrite !app_nil_r. split; reflexivity.
  - destruct (DocList.results page) as [results|]; [|contradiction].
    rewrite app_nil_r.
    destruct (DocList.next (DocList._links page)) as [next|]; cbn in Hnext.
    + rewrite Hnext. split; reflexivity.
    + split; reflexivity.
  - destruct (DocList.results page) as [results|]; [|contradiction].
    rewrite Hnext, Htruthy.
    destruct (IH fuel (documentsList
                         ++ map (fun result => Meta.self (Meta._links result)) results))
      as [Hout Hfetched]; [lia|].
    rewrite Hout, Hfetched, <- app_assoc. split; reflexivity.
Qed.

Lemma getDocumentsFromSpace_spec space pages fuel :
  pagination fetch this (spaceUrl this space) pages ->
  List.length pages <= fuel ->
  outcome (getDocumentsFromSpace fetch this fuel space) =
  Resolved (flat_map selfLinks (map snd pages))
  /\ fetched (events (getDocumentsFromSpace fetch this fuel space)) = map fst pages.
Proof.
  intros Hpages Hfuel. unfold getDocumentsFromSpace. rewrite bind_log.
  destruct (paginate_spec _ _ Hpages fuel [] Hfuel) as [Hout Hfetched].
  cbn [outcome events fst snd]. cbn [outcome events] in Hout, Hfetched.
  rewrite Hout. split; [reflexivity|exact Hfetched].
Qed.

End EnumerateFacts.

(** ** The space resolver *)

Section ResolveFacts.

Variable this : ConfluenceCollatorFactory.

Lemma collectSpaces_spec items values :
  Forall2 annotatedWith items values ->
  forall spaces,
    outcome (collectSpaces items spaces) = Resolved (spaces ++ flat_map tokens values).
Proof.
  induction 1 as [|entity value items values (dict & Hdict & Hvalue) _ IH];
    intros spaces; cbn [collectSpaces flat_map].
  - rewrite app_nil_r. reflexivity.
  - rewrite Hdict, Hvalue, bind_log. cbn [outcome snd].
    rewrite IH, <- app_assoc. reflexivity.
Qed.

Lemma getSpaces_catalog client items values :
  catalogClient this = Some client ->
  getEntities client [spacesFilter] = inr items ->
  Forall2 annotatedWith items values ->
  outcome (getSpaces this) = Resolved (flat_map tokens values).
Proof.
  intros Hclient Hitems Hann. unfold getSpaces. rewrite Hclient.
  rewrite bind_log, bind_call, Hitems. cbn [outcome events fst snd].
  rewrite bind_log. cbn [outcome snd].
  rewrite (bind_resolved _ _ _ (collectSpaces_spec _ _ Hann [])).
  cbn [outcome snd]. rewrite bind_log. reflexivity.
Qed.

End ResolveFacts.

(** ** The collation pipeline *)

Section ExecuteFacts.

Variable fetch : Request -> Result Response.
Variable this : ConfluenceCollatorFactory.

Lemma all_cons {A} (p : Async A) (rest : list (Async A)) :
  outcome (all (p :: rest)) =
  match outcome p, outcome (all rest) with
  | Resolved a, Resolved l => Resolved (a :: l)
  | Resolved _, Rejected e => Rejected e
  | Resolved _, Running => Running
  | Rejected e, _ => Rejected e
  | Running, _ => Running
  end.
Proof. destruct p as [t o]. cbn [all]. destruct (all rest). reflexivity. Qed.

(** The rejection of a page's transform passes the [try] block of its task
    and is turned into an empty result by the [catch] of [safePromises]. *)
Lemma safePromise_outcome limit document :
  (forall A (fn : Async A), limit A fn = fn) ->
  outcome (safePromise (documentTask fetch this limit document)) =
  Resolved (contribution fetch this document).
Proof.
  intros Hlimit. unfold documentTask, tryReturn, contribution. rewrite Hlimit.
  pose proof (getDocumentInfo_not_running fetch this document) as Hrun.
  destruct (getDocumentInfo fetch this document) as [t [documents|e|]];
    cbn in *; [reflexivity|reflexivity|contradiction].
Qed.

Lemma all_safePromises limit documentsList :
  (forall A (fn : Async A), limit A fn = fn) ->
  outcome (all (map safePromise (map (documentTask fetch this limit) documentsList))) =
  Resolved (map (contribution fetch this) documentsList).
Proof.
  intros Hlimit. induction documentsList as [|document rest IH]; [reflexivity|].
  cbn [map]. rewrite all_cons, IH, (safePromise_outcome _ _ Hlimit). reflexivity.
Qed.

Lemma pLimit_valid concurrency :
  (0 < concurrency)%Z ->
  exists limit, pLimit concurrency = inr limit
                /\ forall A (fn : Async A), limit A fn = fn.
Proof.
  intros H. unfold pLimit. apply Z.ltb_lt in H. rewrite H.
  eexists. split; reflexivity.
Qed.

Lemma execute_outcome fuel spacesList documentsList :
  outcome (getSpaces this) = Resolved spacesList ->
  outcome (getDocumentsFromSpaces fetch this fuel spacesList) = Resolved documentsList ->
  (0 < parallelismLimit this)%Z ->
  outcome (execute fetch this fuel) =
  Resolved (flat_map (contribution fetch this) documentsList).
Proof.
  intros Hspaces Hdocuments Hlimit. unfold execute.
  rewrite (bind_resolved _ _ _ Hspaces). cbn [outcome snd].
  rewrite (bind_resolved _ _ _ Hdocuments). cbn [outcome snd].
  destruct (pLimit_valid _ Hlimit) as (limit & -> & Hid). cbn [settle].
  rewrite (bind_resolved (ret limit) _ limit eq_refl). cbn [outcome snd].
  rewrite (bind_resolved _ _ _ (all_safePromises limit documentsList Hid)).
  cbn [outcome snd ret]. rewrite flat_map_concat_map. reflexivity.
Qed.

(** Whatever a run yields is made of the contributions of page references. *)
Lemma execute_resolved_inv fuel documents :
  outcome (execute fetch this fuel) = Resolved documents ->
  exists documentsList, documents = flat_map (contribution fetch this) documentsList.
Proof.
  unfold execute. intros H.
  apply bind_resolved_inv in H as (spacesList & _ & H).
  apply bind_resolved_inv in H as (documentsList & _ & H).
  apply bind_resolved_inv in H as (limit & Hlimit & H).
  apply bind_resolved_inv in H as (gathered & Hall & H).
  unfold pLimit in Hlimit.
  destruct (0 <? parallelismLimit this)%Z; [|discriminate].
  cbn in Hlimit. injection Hlimit as <-.
  rewrite (all_safePromises _ documentsList) in Hall by reflexivity.
  injection Hall as <-. cbn in H. injection H as <-.
  exists documentsList. rewrite flat_map_concat_map. reflexivity.
Qed.

Lemma contribution_inv document emitted :
  In emitted (contribution fetch this document) ->
  exists data,
    outcome (get fetch this (detailUrl document)) = Resolved (JsonDocument data)
    /\ Doc.status data = Some "current"
    /\ contribution fetch this document = [emitted]
    /\ Out.text emitted = stripHtml (Doc.value (Doc.storage (Doc.body data))).
Proof.
  unfold contribution.
  destruct (outcome (getDocumentInfo fetch this document)) as [documents|e|] eqn:H;
    intros Hin; try destruct Hin.
  destruct (getDocumentInfo_resolved_inv _ _ _ _ _ H Hin) as (data & ? & ? & ? & ?).
  exists data. auto.
Qed.

End ExecuteFacts.

(** ** Examples *)

Example stripHtml_hello :
  stripHtml "<p>Hello <b>World</b></p>" = "Hello World".
Proof. reflexivity. Qed.

Example stripHtml_remnants :
  stripHtml "a<>b<<i>>c > d <e" = "a<>b>c > d <e".
Proof. reflexivity. Qed.

Example trim_whitespace :
  Js.trim (String (ascii_of_nat 9) (String (ascii_of_nat 160) " a b  ")) = "a b".
Proof. reflexivity. Qed.

Example split_empty : Js.split "," "" = [""].
Proof. reflexivity. Qed.

Example tokens_keep_duplicates : tokens "Eng,Eng , ,Ops" = ["Eng"; "Eng"; ""; "Ops"].
Proof. reflexivity. Qed.

Example fixture_fromConfig :
  fromConfig Fixture.config
    {| given_parallelismLimit := None; given_catalogClient := None |}
  = inr Fixture.collator.
Proof. reflexivity. Qed.

(** The warning logged for the failing page is the one of [safePromises]:
    the message of the error, not the line that names the page. *)
Example fixture_warnings :
  filter (fun event => match event with Log Warn _ _ => true | _ => false end)
         (events (execute Fixture.fetch Fixture.collator 2))
  = [ Log Warn "non-ok response from confluence"
          ["https://wiki.example/rest/api/content/1?expand=body.storage,space,ancestors,version";
           "500"; ""];
      Log Warn "Request failed with 500 Internal Server Error" [] ].
Proof. vm_compute. reflexivity. Qed.

(** A response that is not ok and whose body cannot be read: [get] rejects
    with the error of the read and logs no warning. *)
Example get_unreadable_error_body :
  get Sample.fetch Fixture.collator (detailUrl (Fixture.selfLink "8")) =
  ([Fetch (getRequest Fixture.collator (detailUrl (Fixture.selfLink "8")))],
   Rejected (FetchError "Premature close")).
Proof. vm_compute. reflexivity. Qed.

(** A bound below one is refused by the limiter, and the run aborts. *)
Example execute_without_slots :
  outcome (execute Fixture.fetch
             {| catalogClient := None; parallelismLimit := -1;
                wikiUrl := Fixture.wiki; spaces := []; auth := auth Fixture.collator |} 1)
  = Rejected (TypeError "Expected `concurrency` to be a number from 1 and up").
Proof. reflexivity. Qed.

(** A listing without a [results] field ends the loop at once, whatever
    its [next] link. *)
Example enumeration_without_results :
  outcome (getDocumentsFromSpace Fixture.fetch Fixture.collator 1 "EMPTY") = Resolved []
  /\ fetched (events (getDocumentsFromSpace Fixture.fetch Fixture.collator 1 "EMPTY"))
     = ["https://wiki.example/rest/api/content?limit=1000&status=current&spaceKey=EMPTY"].
Proof. split; vm_compute; reflexivity. Qed.

(** A [next] link that leads back to the same listing keeps the loop going:
    no amount of fuel lets the enumeration return. *)
Lemma enumeration_of_a_cycle_runs_on fuel :
  outcome (getDocumentsFromSpace Fixture.fetch Fixture.collator fuel "LOOP") = Running.
Proof.
  unfold getDocumentsFromSpace. rewrite bind_log. cbn [outcome snd].
  generalize (@nil string) as documentsList.
  induction fuel as [|fuel IH]; intros documentsList; [reflexivity|].
  rewrite (paginate_step Fixture.fetch Fixture.collator fuel _ _ Fixture.listLoop).
  - cbn [outcome snd]. exact (IH _).
  - eexists. repeat split; vm_compute; reflexivity.
Qed.

(** ** The specified properties *)

(** C1.  In a run whose space resolution and enumeration succeed, the
    documents yielded are the documents of the pages whose transform
    succeeded, in the order of the page references: a page whose transform
    fails brings nothing and the run still completes.  In particular, for a
    batch of a failing page and a page that yields one document, the output
    is exactly that document. *)
Theorem execute_isolates_failed_pages fetch this fuel spacesList documentsList :
  outcome (getSpaces this) = Resolved spacesList ->
  outcome (getDocumentsFromSpaces fetch this fuel spacesList) = Resolved documentsList ->
  (0 < parallelismLimit this)%Z ->
  outcome (execute fetch this fuel) =
  Resolved (flat_map (contribution fetch this) documentsList)
  /\ (forall failing succeeding e document,
         documentsList = [failing; succeeding] ->
         outcome (getDocumentInfo fetch this failing) = Rejected e ->
         outcome (getDocumentInfo fetch this succeeding) = Resolved [document] ->
         outcome (execute fetch this fuel) = Resolved [document]).
Proof.
  intros Hspaces Hdocuments Hlimit.
  pose proof (execute_outcome _ _ _ _ _ Hspaces Hdocuments Hlimit) as Hrun.
  split; [exact Hrun|].
  intros failing succeeding e document -> Hfail Hsucceed.
  rewrite Hrun. cbn [flat_map]. unfold contribution.
  rewrite Hfail, Hsucceed. reflexivity.
Qed.

Lemma execute_isolates_failed_pages_witness :
  outcome (execute Fixture.fetch Fixture.collator 2) = Resolved [Fixture.guideDocument].
Proof.
  destruct (execute_isolates_failed_pages Fixture.fetch Fixture.collator 2 ["ENG"]
              [Fixture.selfLink "1"; Fixture.selfLink "2"; Fixture.selfLink "3"])
    as [Hrun _].
  - vm_compute. reflexivity.
  - vm_compute. reflexivity.
  - reflexivity.
  - rewrite Hrun. vm_compute. reflexivity.
Defined.

(** C2.  When the page fetched by the transformer has a status other than
    the string "current" (or none), [getDocumentInfo] resolves with the
    empty list: no document, and no error. *)
Theorem non_current_page_yields_nothing fetch this documentUrl data :
  outcome (get fetch this (detailUrl documentUrl)) = Resolved (JsonDocument data) ->
  Doc.status data <> Some "current" ->
  outcome (getDocumentInfo fetch this documentUrl) = Resolved [].
Proof. apply getDocumentInfo_filtered. Qed.

Lemma non_current_page_yields_nothing_witness :
  outcome (getDocumentInfo Fixture.fetch Fixture.collator (Fixture.selfLink "3"))
  = Resolved [].
Proof.
  apply (non_current_page_yields_nothing _ _ _ Fixture.old).
  - vm_compute. reflexivity.
  - discriminate.
Defined.

(** C3.  For a fetched page of status "current", [getDocumentInfo] resolves
    with one document whose ancestor list starts with the space
    (title [space.name], location [wikiUrl] followed by the space's webui
    link), whatever the number of raw ancestors, and goes on with the raw
    ancestors in their order, each as its title and [wikiUrl] followed by
    its webui link. *)
Theorem ancestors_start_with_space fetch this documentUrl data :
  outcome (get fetch this (detailUrl documentUrl)) = Resolved (JsonDocument data) ->
  Doc.status data = Some "current" ->
  exists document,
    outcome (getDocumentInfo fetch this documentUrl) = Resolved [document]
    /\ Out.ancestors document =
       {| Ref.title := Doc.name (Doc.space data);
          Ref.location := (wikiUrl this ++ Doc.webui (Doc.links (Doc.space data)))%string |}
       :: map (fun ancestor =>
                 {| Ref.title := Meta.title ancestor;
                    Ref.location :=
                      (wikiUrl this ++ Meta.webui (Meta._links ancestor))%string |})
              (Doc.ancestors data).
Proof.
  intros Hget Hstatus.
  destruct (getDocumentInfo_current _ _ _ _ Hget Hstatus) as (document & Hout & _ & Hanc).
  exists document. split; assumption.
Qed.

Lemma ancestors_start_with_space_witness :
  exists document,
    outcome (getDocumentInfo Fixture.fetch Fixture.collator (Fixture.selfLink "2"))
    = Resolved [document]
    /\ Out.ancestors document =
       [ {| Ref.title := "Engineering"; Ref.location := "https://wiki.example/spaces/ENG" |};
         {| Ref.title := "Home";
            Ref.location := "https://wiki.example/spaces/ENG/pages/0" |} ].
Proof.
  destruct (ancestors_start_with_space Fixture.fetch Fixture.collator
              (Fixture.selfLink "2") Fixture.guide) as (document & Hout & Hanc).
  - vm_compute. reflexivity.
  - reflexivity.
  - exists document. split; [exact Hout|]. rewrite Hanc. vm_compute. reflexivity.
Defined.

(** C4.  When the listing of a space is served as a chain of pagination
    pages (each page but the last with results and a [next] link leading to
    the page after it, the last one without a [results] field or without a
    [next] link), [getDocumentsFromSpace], given fuel for as many iterations
    as there are pages, resolves with the self links of the results of all
    pages in page order, and requests each page once, in that order, and
    nothing else: one fetch when the first page has no [next] link, and no
    error when a page has no [results] field. *)
Theorem enumeration_follows_next_links fetch this space pages fuel :
  pagination fetch this (spaceUrl this space) pages ->
  List.length pages <= fuel ->
  outcome (getDocumentsFromSpace fetch this fuel space) =
  Resolved (flat_map selfLinks (map snd pages))
  /\ fetched (events (getDocumentsFromSpace fetch this fuel space)) = map fst pages
  /\ List.length (fetched (events (getDocumentsFromSpace fetch this fuel space))) =
     List.length pages.
Proof.
  intros Hpages Hfuel.
  destruct (getDocumentsFromSpace_spec _ _ _ _ _ Hpages Hfuel) as [Hout Hfetched].
  repeat split; [exact Hout|exact Hfetched|].
  rewrite Hfetched. apply length_map.
Qed.

Lemma enumeration_follows_next_links_witness :
  outcome (getDocumentsFromSpace Fixture.fetch Fixture.collator 2 "ENG") =
  Resolved [Fixture.selfLink "1"; Fixture.selfLink "2"; Fixture.selfLink "3"]
  /\ fetched (events (getDocumentsFromSpace Fixture.fetch Fixture.collator 2 "ENG")) =
     [ "https://wiki.example/rest/api/content?limit=1000&status=current&spaceKey=ENG";
       "https://wiki.example/rest/api/content?start=2" ].
Proof.
  destruct (enumeration_follows_next_links Fixture.fetch Fixture.collator "ENG"
              [ (spaceUrl Fixture.collator "ENG", Fixture.listPage1);
                ((Fixture.wiki ++ "/rest/api/content?start=2")%string, Fixture.listPage2) ]
              2) as (Hout & Hfetched & _).
  - eapply pagination_next.
    + eexists. repeat split; vm_compute; reflexivity.
    + discriminate.
    + reflexivity.
    + reflexivity.
    + apply pagination_no_next.
      * eexists. repeat split; vm_compute; reflexivity.
      * discriminate.
      * reflexivity.
  - simpl. lia.
  - split; [rewrite Hout|rewrite Hfetched]; vm_compute; reflexivity.
Defined.

(** C5.  The text of every document a run yields is [stripHtml] of the
    stored-format body of a fetched page, and contains no substring
    [<...>] with a non-empty interior free of [>]: the pattern of
    [stripHtml] matches nowhere in it. *)
Theorem emitted_text_has_no_tag fetch this fuel documents document :
  outcome (execute fetch this fuel) = Resolved documents ->
  In document documents ->
  (exists documentUrl data,
      outcome (get fetch this (detailUrl documentUrl)) = Resolved (JsonDocument data)
      /\ Out.text document = stripHtml (Doc.value (Doc.storage (Doc.body data))))
  /\ ~ Tag.occursIn (Out.text document)
  /\ Tag.test (Out.text document) = false.
Proof.
  intros Hrun Hin.
  destruct (execute_resolved_inv _ _ _ _ Hrun) as (documentsList & ->).
  apply in_flat_map in Hin as (documentUrl & _ & Hin).
  destruct (contribution_inv _ _ _ _ Hin) as (data & Hget & _ & _ & Htext).
  split; [exists documentUrl, data; auto|].
  rewrite Htext. split; [apply stripHtml_clean|apply stripHtml_test].
Qed.

Lemma emitted_text_has_no_tag_witness :
  Out.text Fixture.guideDocument = "Hello World"
  /\ ~ Tag.occursIn (Out.text Fixture.guideDocument).
Proof.
  split; [reflexivity|].
  apply (emitted_text_has_no_tag Fixture.fetch Fixture.collator 2
           [Fixture.guideDocument] Fixture.guideDocument).
  - vm_compute. reflexivity.
  - left. reflexivity.
Defined.

(** C6.  With a catalog client, [getSpaces] resolves with the tokens of the
    annotation values of the entities the catalog returns, in the order of
    the entities: each value split on commas, each token trimmed, nothing
    removed.  The tokens of a value are its parts between the commas, each
    without the white space at its two ends.  The values "Eng, Sales" and
    "Marketing" give ["Eng"; "Sales"; "Marketing"]. *)
Theorem catalog_spaces_are_split_and_trimmed this client items values :
  catalogClient this = Some client ->
  getEntities client [spacesFilter] = inr items ->
  Forall2 annotatedWith items values ->
  outcome (getSpaces this) =
  Resolved (flat_map (fun value => map Js.trim (Js.split "," value)) values)
  /\ exists found,
       Forall2 Means.tokensOf values found
       /\ outcome (getSpaces this) = Resolved (List.concat found).
Proof.
  intros Hclient Hitems Hann.
  pose proof (getSpaces_catalog _ _ _ _ Hclient Hitems Hann) as Hout.
  split; [exact Hout|].
  exists (map tokens values). split.
  - clear. induction values as [|value values IH]; constructor; [|exact IH].
    exists (Js.split "," value). split.
    + split; [apply split_not_empty|]. split; [apply split_concat|].
      apply Forall_forall. intros piece Hin. apply (split_pieces_free _ _ _ Hin).
    + unfold tokens. induction (Js.split "," value) as [|piece pieces IHp];
        constructor; [|exact IHp].
      destruct (trim_spec piece) as (before & after & Hs & Hb & Ha & Ht).
      exists before, after. auto.
  - rewrite Hout, flat_map_concat_map. reflexivity.
Qed.

Lemma catalog_spaces_are_split_and_trimmed_witness :
  outcome (getSpaces Fixture.catalogCollator) = Resolved ["Eng"; "Sales"; "Marketing"]
  /\ outcome (getSpaces (Sample.withCatalog Sample.paddedCatalog)) =
     Resolved ["Eng"; "Sales"; "Marketing"; ""].
Proof.
  split.
  - rewrite (proj1 (catalog_spaces_are_split_and_trimmed
                      Fixture.catalogCollator Fixture.catalog
                      [Fixture.annotated "Eng, Sales"; Fixture.annotated "Marketing"]
                      ["Eng, Sales"; "Marketing"] eq_refl eq_refl
                      ltac:(repeat constructor; eexists; split; reflexivity))).
    reflexivity.
  - rewrite (proj1 (catalog_spaces_are_split_and_trimmed
                      (Sample.withCatalog Sample.paddedCatalog) Sample.paddedCatalog
                      [Fixture.annotated Sample.padded; Fixture.annotated "Marketing ,"]
                      [Sample.padded; "Marketing ,"] eq_refl eq_refl
                      ltac:(repeat constructor; eexists; split; reflexivity))).
    reflexivity.
Defined.

(** C8, as stated, fails: page 4 of the fixture is answered by a 200
    response whose body is not JSON, and [get] rejects although the
    response is ok. *)
Lemma get_rejects_an_ok_response :
  let requestUrl := detailUrl (Fixture.selfLink "4") in
  let res := Fixture.answer 200 "OK" Fixture.notJson in
  Fixture.fetch (getRequest Fixture.collator requestUrl) = inr res
  /\ ok res = true
  /\ outcome (get Fixture.fetch Fixture.collator requestUrl) =
     Rejected (FetchError "invalid json response body")
  /\ ~ ((exists e, outcome (get Fixture.fetch Fixture.collator requestUrl) = Rejected e)
        <-> ok res = false).
Proof.
  cbv zeta.
  split; [vm_compute; reflexivity|].
  split; [reflexivity|].
  split; [vm_compute; reflexivity|].
  intros [H _].
  assert (ok (Fixture.answer 200 "OK" Fixture.notJson) = false) as Hok.
  { apply H. eexists. vm_compute. reflexivity. }
  discriminate Hok.
Qed.

(** C9.  [stripHtml] is idempotent, as the pattern matches nowhere in its
    output. *)
Theorem stripHtml_idempotent s :
  stripHtml (stripHtml s) = stripHtml s /\ Tag.test (stripHtml s) = false.
Proof.
  split; [apply stripHtml_fixed|]; apply stripHtml_test.
Qed.

(** C10.  With a complete configuration, [fromConfig] called without a
    parallelism limit, or with the limit 0, builds a collator whose
    parallelism limit is 15. *)
Theorem fromConfig_defaults_falsy_limit config options wiki spaceKeys user pass :
  getString config "confluence.wikiUrl" = inr wiki ->
  getStringArray config "confluence.spaces" = inr spaceKeys ->
  getString config "confluence.auth.username" = inr user ->
  getString config "confluence.auth.password" = inr pass ->
  given_parallelismLimit options = None \/ given_parallelismLimit options = Some 0%Z ->
  exists collator,
    fromConfig config options = inr collator
    /\ parallelismLimit collator = 15%Z.
Proof.
  intros Hwiki Hspaces Huser Hpass Hlimit. unfold fromConfig.
  rewrite Hwiki, Hspaces, Huser, Hpass. eexists. split; [reflexivity|].
  cbn [new parallelismLimit opt_parallelismLimit].
  destruct Hlimit as [-> | ->]; reflexivity.
Qed.

Lemma fromConfig_defaults_falsy_limit_witness :
  exists collator,
    fromConfig Fixture.config
      {| given_parallelismLimit := Some 0%Z; given_catalogClient := None |}
    = inr collator
    /\ parallelismLimit collator = 15%Z.
Proof.
  apply (fromConfig_defaults_falsy_limit Fixture.config _
           Fixture.wiki ["ENG"] "user" "pass");
    [reflexivity|reflexivity|reflexivity|reflexivity|right; reflexivity].
Defined.

(** * Further properties *)

(** ** Tag stripping, continued *)

Lemma subseq_length s t : Text.Subseq s t -> String.length s <= String.length t.
Proof. induction 1; simpl; lia. Qed.

Lemma body_subseq seen s after x :
  Tag.body seen s = Some after -> Text.Subseq x after -> Text.Subseq x s.
Proof.
  revert seen; induction s as [|c s IH]; intros seen; cbn [Tag.body]; [discriminate|].
  destruct (Tag.isGt c).
  - destruct seen; [|discriminate]. intros [= <-] H. apply Text.subseq_skip, H.
  - intros Hb H. apply Text.subseq_skip. exact (IH _ Hb H).
Qed.

Lemma stripHtml_subseq s : Text.Subseq (stripHtml s) s.
Proof.
  remember (String.length s) as n eqn:Hn.
  revert s Hn. induction n as [n IH] using lt_wf_ind. intros s Hn.
  destruct s as [|c s]; [constructor|].
  rewrite stripHtml_cons.
  destruct (Tag.matchAt (String c s)) as [after|] eqn:Hm.
  - pose proof (matchAt_shorter _ _ Hm) as Hshort.
    cbn [Tag.matchAt] in Hm. destruct (Tag.isLt c); [|discriminate].
    apply Text.subseq_skip. apply (body_subseq _ _ _ _ Hm).
    apply (IH (String.length after)); [subst n; exact Hshort|reflexivity].
  - apply Text.subseq_keep.
    apply (IH (String.length s)); [subst n; simpl; lia|reflexivity].
Qed.

Lemma stripHtml_leading_text before rest :
  (forall c, Text.contains c before -> c <> "<"%char) ->
  stripHtml (before ++ rest) = (before ++ stripHtml rest)%string.
Proof.
  induction before as [|c before IH]; intros Hfree; [reflexivity|].
  cbn [append]. rewrite stripHtml_cons. cbn [Tag.matchAt].
  assert (Tag.isLt c = false) as ->.
  { apply Ascii.eqb_neq, Hfree. left. reflexivity. }
  rewrite IH; [reflexivity|]. intros d Hd. apply Hfree. right. exact Hd.
Qed.

Lemma stripHtml_leading_tag inner rest :
  inner <> EmptyString ->
  (forall c, Text.contains c inner -> c <> ">"%char) ->
  stripHtml (String "<" (inner ++ String ">" rest)) = stripHtml rest.
Proof.
  intros Hne Hfree. rewrite stripHtml_cons.
  cbn [Tag.matchAt]. replace (Tag.isLt "<") with true by reflexivity.
  rewrite (body_inner false inner rest Hfree).
  destruct inner; [contradiction|reflexivity].
Qed.

(** X1.  [stripHtml] only deletes: its output is its input with some
    characters left out, in the same order, and is never longer. *)
Theorem stripHtml_only_deletes s :
  Text.Subseq (stripHtml s) s
  /\ String.length (stripHtml s) <= String.length s.
Proof.
  split; [|apply subseq_length]; apply stripHtml_subseq.
Qed.

(** X2.  [stripHtml] changes a string exactly when the string contains a
    tag, that is a [<], a non-empty run of characters other than [>], and
    a [>]; text without one (with entities, lone angle brackets or [<>])
    comes out as it is. *)
Theorem stripHtml_changes_tagged_text_only s :
  stripHtml s = s <-> ~ Tag.occursIn s.
Proof.
  split.
  - intros H. rewrite <- H. apply stripHtml_clean.
  - intros H. apply stripHtml_fixed.
    destruct (Tag.test s) eqn:Ht; [|reflexivity].
    apply test_occursIn in Ht. contradiction.
Qed.

(** X3.  Text before the first [<] is kept, a tag that follows it is dropped
    whole, and stripping goes on with what follows the tag. *)
Theorem stripHtml_drops_first_tag before inner rest :
  (forall c, Text.contains c before -> c <> "<"%char) ->
  inner <> EmptyString ->
  (forall c, Text.contains c inner -> c <> ">"%char) ->
  stripHtml (before ++ String "<" (inner ++ String ">" rest)) =
  (before ++ stripHtml rest)%string.
Proof.
  intros Hbefore Hne Hinner.
  rewrite (stripHtml_leading_text _ _ Hbefore).
  rewrite (stripHtml_leading_tag _ _ Hne Hinner). reflexivity.
Qed.

Lemma stripHtml_drops_first_tag_witness :
  stripHtml "Tom &amp; <script src='x'>alert(1)</script>" =
  ("Tom &amp; " ++ stripHtml "alert(1)</script>")%string.
Proof.
  apply (stripHtml_drops_first_tag "Tom &amp; " "script src='x'" "alert(1)</script>").
  - intros c H. cbv in H. intuition (subst; discriminate).
  - discriminate.
  - intros c H. cbv in H. intuition (subst; discriminate).
Defined.

(** ** Events *)

Lemma events_bind {A B} (p : Async A) (k : A -> Async B) :
  events (bind p k) =
  events p ++ match outcome p with
              | Resolved a => events (k a)
              | Rejected _ => []
              | Running => []
              end.
Proof.
  destruct p as [t [a|e|]]; cbn; [destruct (k a)|..]; cbn; rewrite ?app_nil_r; reflexivity.
Qed.

Lemma outcome_bind {A B} (p : Async A) (k : A -> Async B) :
  outcome (bind p k) =
  match outcome p with
  | Resolved a => outcome (k a)
  | Rejected e => Rejected e
  | Running => Running
  end.
Proof. destruct p as [t [a|e|]]; cbn; [destruct (k a)|..]; reflexivity. Qed.

Lemma catalogQueries_app t1 t2 :
  catalogQueries (t1 ++ t2) = catalogQueries t1 ++ catalogQueries t2.
Proof. unfold catalogQueries. apply flat_map_app. Qed.

Lemma warnings_app t1 t2 : warnings (t1 ++ t2) = warnings t1 ++ warnings t2.
Proof. unfold warnings. apply flat_map_app. Qed.

(** ** The space resolver, continued *)

Section ResolveMore.

Variable this : ConfluenceCollatorFactory.

Lemma collectSpaces_quiet items spaces :
  catalogQueries (events (collectSpaces items spaces)) = []
  /\ fetched (events (collectSpaces items spaces)) = [].
Proof.
  revert spaces. induction items as [|entity items IH]; intros spaces;
    cbn [collectSpaces]; [split; reflexivity|].
  destruct (annotations (metadata entity)) as [dict|]; [|split; reflexivity].
  destruct (lookup ANNOTATION_OVO_CONFLUENCE_SPACES dict) as [annotation|];
    rewrite bind_log; cbn [events fst]; [|split; reflexivity].
  apply IH.
Qed.

Lemma collectSpaces_unannotated good values bad rest spaces :
  Forall2 annotatedWith good values ->
  unannotated bad ->
  exists message,
    outcome (collectSpaces (good ++ bad :: rest) spaces) = Rejected (TypeError message).
Proof.
  intros Hgood Hbad. revert spaces.
  induction Hgood as [|entity value good values (dict & Hdict & Hvalue) _ IH];
    intros spaces; cbn [app collectSpaces].
  - unfold unannotated in Hbad.
    destruct (annotations (metadata bad)) as [dict|]; [|eexists; reflexivity].
    rewrite Hbad, bind_log. eexists. reflexivity.
  - rewrite Hdict, Hvalue, bind_log. cbn [outcome snd]. apply IH.
Qed.

Lemma tokens_clean value space :
  In space (tokens value) ->
  Text.trimmed space /\ ~ Text.contains ","%char space.
Proof.
  unfold tokens. intros H. apply in_map_iff in H as (piece & <- & Hpiece).
  destruct (trim_spec piece) as (before & after & Hs & _ & _ & Htrimmed).
  split; [exact Htrimmed|].
  intros Hc. apply (split_pieces_free _ _ _ Hpiece).
  rewrite Hs. apply contains_append. right. apply contains_append. left. exact Hc.
Qed.

End ResolveMore.

(** X4.  Without a catalog client, [getSpaces] resolves with the configured
    list and neither queries nor logs anything.  With a client the
    configured list is not used: the catalog is asked exactly once, for
    the entities of kind Resource and type confluence-spaces that have the
    annotation, and when it returns no entity there is no space at all. *)
Theorem getSpaces_uses_one_source this :
  (catalogClient this = None -> getSpaces this = ([], Resolved (spaces this)))
  /\ (forall client,
         catalogClient this = Some client ->
         catalogQueries (events (getSpaces this)) =
         [ [ [ ("kind", FilterString "Resource");
               ("spec.type", FilterString "confluence-spaces");
               ("metadata.annotations.ovo.com/confluence-spaces", CATALOG_FILTER_EXISTS) ] ] ]
         /\ (getEntities client [spacesFilter] = inr [] ->
             outcome (getSpaces this) = Resolved [])).
Proof.
  split.
  - intros H. unfold getSpaces. rewrite H. reflexivity.
  - intros client H. unfold getSpaces. rewrite H. split.
    + rewrite bind_log, bind_call. cbn [events fst].
      destruct (getEntities client [spacesFilter]) as [e|items]; [reflexivity|].
      cbn [events fst]. rewrite bind_log. cbn [events fst].
      rewrite events_bind.
      change (catalogQueries (?a :: ?b :: ?c :: ?t)) with ([ [spacesFilter] ] ++ catalogQueries t).
      rewrite catalogQueries_app.
      rewrite (proj1 (collectSpaces_quiet items [])).
      destruct (outcome (collectSpaces items [])); [rewrite bind_log|..]; reflexivity.
    + intros Hitems. rewrite bind_log, bind_call, Hitems. cbn [outcome snd].
      rewrite bind_log. cbn [outcome snd collectSpaces].
      rewrite (bind_resolved (ret []) _ [] eq_refl). cbn [outcome snd].
      rewrite bind_log. reflexivity.
Qed.

Lemma getSpaces_uses_one_source_witness :
  getSpaces Fixture.collator = ([], Resolved ["ENG"])
  /\ catalogQueries (events (getSpaces Fixture.catalogCollator)) = [[spacesFilter]].
Proof.
  split.
  - apply (proj1 (getSpaces_uses_one_source Fixture.collator)). reflexivity.
  - apply (proj2 (getSpaces_uses_one_source Fixture.catalogCollator) Fixture.catalog).
    reflexivity.
Defined.

(** X5.  Every space that [getSpaces] resolves from the catalog is free of
    commas and neither starts nor ends with white space. *)
Theorem catalog_spaces_are_clean this client items values resolved space :
  catalogClient this = Some client ->
  getEntities client [spacesFilter] = inr items ->
  Forall2 annotatedWith items values ->
  outcome (getSpaces this) = Resolved resolved ->
  In space resolved ->
  Text.trimmed space /\ ~ Text.contains ","%char space.
Proof.
  intros Hclient Hitems Hann Hout Hin.
  rewrite (getSpaces_catalog _ _ _ _ Hclient Hitems Hann) in Hout.
  injection Hout as <-. apply in_flat_map in Hin as (value & _ & Hin).
  apply (tokens_clean _ _ Hin).
Qed.

Lemma catalog_spaces_are_clean_witness :
  Text.trimmed "Sales" /\ ~ Text.contains ","%char "Sales".
Proof.
  apply (catalog_spaces_are_clean Fixture.catalogCollator Fixture.catalog
           [Fixture.annotated "Eng, Sales"; Fixture.annotated "Marketing"]
           ["Eng, Sales"; "Marketing"] ["Eng"; "Sales"; "Marketing"]).
  - reflexivity.
  - reflexivity.
  - repeat constructor; eexists; split; reflexivity.
  - vm_compute. reflexivity.
  - right. left. reflexivity.
Defined.

(** X6.  An annotation value brings one space more than it has commas, so
    an entity never brings none: an empty value, or the text after a
    trailing comma, gives an empty space identifier. *)
Theorem catalog_spaces_count this client items values :
  catalogClient this = Some client ->
  getEntities client [spacesFilter] = inr items ->
  Forall2 annotatedWith items values ->
  exists resolved,
    outcome (getSpaces this) = Resolved resolved
    /\ List.length resolved =
       list_sum (map (fun value => S (Text.count ","%char value)) values)
    /\ List.length items <= List.length resolved.
Proof.
  intros Hclient Hitems Hann.
  rewrite (getSpaces_catalog _ _ _ _ Hclient Hitems Hann).
  eexists. split; [reflexivity|].
  assert (Hlen : List.length (flat_map tokens values) =
                 list_sum (map (fun value => S (Text.count ","%char value)) values)).
  { clear. induction values as [|value values IH]; [reflexivity|].
    cbn [flat_map map list_sum]. rewrite length_app, IH.
    unfold tokens. rewrite length_map, split_length. reflexivity. }
  split; [exact Hlen|]. rewrite Hlen.
  clear - Hann. induction Hann as [|entity value items values _ _ IH]; [reflexivity|].
  cbn [map List.length].
  change (list_sum (?n :: ?l)) with (n + list_sum l). lia.
Qed.

Lemma catalog_spaces_count_witness :
  exists resolved,
    outcome (getSpaces Fixture.catalogCollator) = Resolved resolved
    /\ List.length resolved = 3.
Proof.
  destruct (catalog_spaces_count Fixture.catalogCollator Fixture.catalog
              [Fixture.annotated "Eng, Sales"; Fixture.annotated "Marketing"]
              ["Eng, Sales"; "Marketing"]) as (resolved & Hout & Hlen & _).
  - reflexivity.
  - reflexivity.
  - repeat constructor; eexists; split; reflexivity.
  - exists resolved. split; [exact Hout|exact Hlen].
Defined.

(** X7.  With a catalog client, [getSpaces] rejects when the catalog query
    fails, with the error of the query, and when one of the entities
    returned has no spaces annotation, with a [TypeError], whatever the
    entities before and after it. *)
Theorem getSpaces_errors this client :
  catalogClient this = Some client ->
  (forall e, getEntities client [spacesFilter] = inl e ->
             outcome (getSpaces this) = Rejected e)
  /\ (forall good values bad rest,
         getEntities client [spacesFilter] = inr (good ++ bad :: rest) ->
         Forall2 annotatedWith good values ->
         unannotated bad ->
         exists message, outcome (getSpaces this) = Rejected (TypeError message)).
Proof.
  intros Hclient. unfold getSpaces. rewrite Hclient. split.
  - intros e He. rewrite bind_log, bind_call, He. reflexivity.
  - intros good values bad rest Hitems Hgood Hbad.
    rewrite bind_log, bind_call, Hitems. cbn [outcome snd].
    rewrite bind_log. cbn [outcome snd].
    destruct (collectSpaces_unannotated good values bad rest [] Hgood Hbad)
      as (message & Hout).
    exists message. rewrite (bind_rejected _ _ _ Hout). reflexivity.
Qed.

(** ** The fetch wrapper and the page transformer, continued *)

Section TransformMore.

Variable fetch : Request -> Result Response.
Variable this : ConfluenceCollatorFactory.

Lemma get_events requestUrl :
  events (get fetch this requestUrl) =
  Fetch (getRequest this requestUrl)
  :: match fetch (getRequest this requestUrl) with
     | inl _ => []
     | inr res =>
         if ok res then []
         else match text res with
              | inl _ => []
              | inr body =>
                  [Log Warn "non-ok response from confluence"
                     [requestUrl; Js.showNat (status res); body]]
              end
     end.
Proof.
  unfold get. rewrite bind_call.
  destruct (fetch (getRequest this requestUrl)) as [e|res]; [reflexivity|].
  destruct (ok res); cbn.
  - destruct (json res); reflexivity.
  - destruct (text res); reflexivity.
Qed.

Lemma getDocumentInfo_events documentUrl :
  events (getDocumentInfo fetch this documentUrl) =
  Log Debug ("fetching document content " ++ documentUrl)%string []
  :: events (get fetch this (detailUrl documentUrl)).
Proof.
  unfold getDocumentInfo. rewrite bind_log. cbn [events fst]. f_equal.
  rewrite events_bind. fold (detailUrl documentUrl).
  destruct (outcome (get fetch this (detailUrl documentUrl))) as [[l|data]|e|];
    rewrite ?app_nil_r; try reflexivity.
  destruct (negb _ || negb _); rewrite app_nil_r; reflexivity.
Qed.

Lemma getDocumentInfo_list documentUrl l :
  outcome (get fetch this (detailUrl documentUrl)) = Resolved (JsonList l) ->
  outcome (getDocumentInfo fetch this documentUrl) = Resolved [].
Proof.
  intros Hget. unfold getDocumentInfo. rewrite bind_log. cbn [outcome snd].
  rewrite (bind_resolved _ _ _ Hget). reflexivity.
Qed.

(** All the fields of the document of a current page. *)
Lemma getDocumentInfo_current_fields documentUrl data :
  outcome (get fetch this (detailUrl documentUrl)) = Resolved (JsonDocument data) ->
  Doc.status data = Some "current" ->
  outcome (getDocumentInfo fetch this documentUrl) =
  Resolved
    [ {| Out.title := Doc.title data;
         Out.text := stripHtml (Doc.value (Doc.storage (Doc.body data)));
         Out.location := (wikiUrl this ++ Meta.webui (Doc._links data))%string;
         Out.spaceKey := Doc.key (Doc.space data);
         Out.spaceName := Doc.name (Doc.space data);
         Out.ancestors :=
           {| Ref.title := Doc.name (Doc.space data);
              Ref.location :=
                (wikiUrl this ++ Doc.webui (Doc.links (Doc.space data)))%string |}
           :: map (ancestorRef this) (Doc.ancestors data);
         Out.lastModifiedBy := Doc.publicName (Doc.by_ (Doc.version data));
         Out.lastModified := Doc.when (Doc.version data);
         Out.lastModifiedFriendly := Doc.friendlyWhen (Doc.version data) |} ].
Proof.
  intros H Hstatus. unfold getDocumentInfo. rewrite bind_log. cbn [outcome snd].
  rewrite (bind_resolved _ _ _ H). cbn [snd].
  rewrite Hstatus. cbn [Js.truthyField Js.truthy isCurrent negb orb].
  replace ("current" =? "current")%string with true by reflexivity.
  reflexivity.
Qed.

Lemma getDocumentInfo_rejected_iff documentUrl e :
  outcome (getDocumentInfo fetch this documentUrl) = Rejected e <->
  outcome (get fetch this (detailUrl documentUrl)) = Rejected e.
Proof.
  split.
  - intros H.
    destruct (outcome (get fetch this (detailUrl documentUrl))) as [[l|data]|e'|] eqn:Hget.
    + rewrite (getDocumentInfo_list _ _ Hget) in H. discriminate.
    + destruct (isCurrent (Doc.status data)) eqn:Hc.
      * apply isCurrent_spec in Hc.
        rewrite (getDocumentInfo_current_fields _ _ Hget Hc) in H. discriminate.
      * rewrite (getDocumentInfo_filtered _ _ _ _ Hget) in H; [discriminate|].
        intros Hs. apply isCurrent_spec in Hs. congruence.
    + rewrite (getDocumentInfo_rejected _ _ _ _ Hget) in H.
      injection H as ->. reflexivity.
    + apply get_not_running in Hget. contradiction.
  - apply getDocumentInfo_rejected.
Qed.

Lemma contribution_current document emitted :
  In emitted (contribution fetch this document) ->
  exists data,
    outcome (get fetch this (detailUrl document)) = Resolved (JsonDocument data)
    /\ Doc.status data = Some "current"
    /\ outcome (getDocumentInfo fetch this document) = Resolved [emitted].
Proof.
  intros Hin. pose proof Hin as Hin'.
  apply contribution_inv in Hin as (data & Hget & Hstatus & Hone & _).
  exists data. repeat split; auto.
  unfold contribution in Hone.
  destruct (outcome (getDocumentInfo fetch this document)) as [documents|e|];
    try discriminate. rewrite Hone. reflexivity.
Qed.

Lemma contribution_length document :
  List.length (contribution fetch this document) <= 1.
Proof.
  destruct (contribution fetch this document) as [|emitted rest] eqn:H; [simpl; lia|].
  assert (In emitted (contribution fetch this document)) as Hin
      by (rewrite H; left; reflexivity).
  apply contribution_inv in Hin as (_ & _ & _ & Hone & _).
  rewrite H in Hone. injection Hone as ->. simpl. lia.
Qed.

End TransformMore.

(** X9.  When the wiki answers with bodies of the declared shapes (a page
    with all the fields of [ConfluenceDocument], or a page list), the
    transform of a page rejects exactly when its call of [get] rejects, and
    with the same error: whatever the status of such a page,
    [getDocumentInfo] adds no failure of its own.  A decoded page that lacks
    declared fields is not a value of the model. *)
Theorem getDocumentInfo_rejects_as_get fetch this documentUrl e :
  outcome (getDocumentInfo fetch this documentUrl) = Rejected e <->
  outcome (get fetch this (detailUrl documentUrl)) = Rejected e.
Proof. apply getDocumentInfo_rejected_iff. Qed.

(** X10.  A page brings at most one document, so a run yields at most as
    many documents as there are page references. *)
Theorem execute_yields_at_most_one_per_page fetch this fuel spacesList documentsList :
  outcome (getSpaces this) = Resolved spacesList ->
  outcome (getDocumentsFromSpaces fetch this fuel spacesList) = Resolved documentsList ->
  (0 < parallelismLimit this)%Z ->
  exists documents,
    outcome (execute fetch this fuel) = Resolved documents
    /\ List.length documents <= List.length documentsList.
Proof.
  intros Hspaces Hdocuments Hlimit.
  rewrite (execute_outcome _ _ _ _ _ Hspaces Hdocuments Hlimit).
  eexists. split; [reflexivity|].
  clear. induction documentsList as [|document rest IH]; [simpl; lia|].
  cbn [flat_map]. rewrite length_app. cbn [List.length].
  pose proof (contribution_length fetch this document). lia.
Qed.

Lemma execute_yields_at_most_one_per_page_witness :
  exists documents,
    outcome (execute Fixture.fetch Fixture.collator 2) = Resolved documents
    /\ List.length documents <= 3.
Proof.
  apply (execute_yields_at_most_one_per_page Fixture.fetch Fixture.collator 2 ["ENG"]
           [Fixture.selfLink "1"; Fixture.selfLink "2"; Fixture.selfLink "3"]).
  - vm_compute. reflexivity.
  - vm_compute. reflexivity.
  - reflexivity.
Defined.

(** X11.  Every document a run yields comes from one of the enumerated page
    references, whose fetched page is current, and mirrors that page: its
    title, its location ([wikiUrl] followed by the page's webui link), the
    key and the name of its space, and the editor and the two timestamps of
    its version. *)
Theorem yielded_documents_mirror_pages fetch this fuel spacesList documentsList
    documents document :
  outcome (getSpaces this) = Resolved spacesList ->
  outcome (getDocumentsFromSpaces fetch this fuel spacesList) = Resolved documentsList ->
  (0 < parallelismLimit this)%Z ->
  outcome (execute fetch this fuel) = Resolved documents ->
  In document documents ->
  exists documentUrl data,
    In documentUrl documentsList
    /\ outcome (get fetch this (detailUrl documentUrl)) = Resolved (JsonDocument data)
    /\ Doc.status data = Some "current"
    /\ Out.title document = Doc.title data
    /\ Out.location document = (wikiUrl this ++ Meta.webui (Doc._links data))%string
    /\ Out.spaceKey document = Doc.key (Doc.space data)
    /\ Out.spaceName document = Doc.name (Doc.space data)
    /\ Out.lastModifiedBy document = Doc.publicName (Doc.by_ (Doc.version data))
    /\ Out.lastModified document = Doc.when (Doc.version data)
    /\ Out.lastModifiedFriendly document = Doc.friendlyWhen (Doc.version data).
Proof.
  intros Hspaces Hdocuments Hlimit Hrun Hin.
  rewrite (execute_outcome _ _ _ _ _ Hspaces Hdocuments Hlimit) in Hrun.
  injection Hrun as <-. apply in_flat_map in Hin as (documentUrl & HinUrl & Hin).
  destruct (contribution_current _ _ _ _ Hin) as (data & Hget & Hstatus & Hout).
  rewrite (getDocumentInfo_current_fields _ _ _ _ Hget Hstatus) in Hout.
  injection Hout as <-.
  exists documentUrl, data. repeat split; auto.
Qed.

Lemma yielded_documents_mirror_pages_witness :
  exists documentUrl data,
    In documentUrl [Fixture.selfLink "1"; Fixture.selfLink "2"; Fixture.selfLink "3"]
    /\ outcome (get Fixture.fetch Fixture.collator (detailUrl documentUrl))
       = Resolved (JsonDocument data)
    /\ Out.title Fixture.guideDocument = Doc.title data.
Proof.
  destruct (yielded_documents_mirror_pages Fixture.fetch Fixture.collator 2 ["ENG"]
              [Fixture.selfLink "1"; Fixture.selfLink "2"; Fixture.selfLink "3"]
              [Fixture.guideDocument] Fixture.guideDocument)
    as (documentUrl & data & Hin & Hget & _ & Htitle & _).
  - vm_compute. reflexivity.
  - vm_compute. reflexivity.
  - reflexivity.
  - vm_compute. reflexivity.
  - left. reflexivity.
  - exists documentUrl, data. auto.
Defined.

(** X12.  In every document a run yields, the location and the locations of
    all ancestors start with [wikiUrl], there is at least one ancestor, and
    the title of the first ancestor is the document's space name. *)
Theorem yielded_documents_are_rooted fetch this fuel documents document :
  outcome (execute fetch this fuel) = Resolved documents ->
  In document documents ->
  String.prefix (wikiUrl this) (Out.location document) = true
  /\ Forall (fun ancestor => String.prefix (wikiUrl this) (Ref.location ancestor) = true)
            (Out.ancestors document)
  /\ option_map Ref.title (hd_error (Out.ancestors document))
     = Some (Out.spaceName document).
Proof.
  intros Hrun Hin.
  destruct (execute_resolved_inv _ _ _ _ Hrun) as (documentsList & ->).
  apply in_flat_map in Hin as (documentUrl & _ & Hin).
  destruct (contribution_current _ _ _ _ Hin) as (data & Hget & Hstatus & Hout).
  rewrite (getDocumentInfo_current_fields _ _ _ _ Hget Hstatus) in Hout.
  injection Hout as <-. cbn.
  assert (Hprefix : forall a b, String.prefix a (a ++ b) = true).
  { induction a as [|c a IH]; intros b; cbn; [destruct b; reflexivity|].
    destruct (ascii_dec c c); [apply IH|contradiction]. }
  repeat split; [apply Hprefix|].
  constructor; [apply Hprefix|].
  apply Forall_map, Forall_forall. intros ancestor _. apply Hprefix.
Qed.

Lemma yielded_documents_are_rooted_witness :
  String.prefix "https://wiki.example" (Out.location Fixture.guideDocument) = true.
Proof.
  apply (yielded_documents_are_rooted Fixture.fetch Fixture.collator 2
           [Fixture.guideDocument] Fixture.guideDocument).
  - vm_compute. reflexivity.
  - left. reflexivity.
Defined.

(** ** The collation pipeline, continued *)

Section ExecuteMore.

Variable fetch : Request -> Result Response.
Variable this : ConfluenceCollatorFactory.

Lemma all_events {A} (promises : list (Async A)) :
  events (all promises) = List.concat (map events promises).
Proof.
  induction promises as [|[t o] rest IH]; [reflexivity|].
  cbn [all map List.concat]. destruct (all rest) as [ts os].
  cbn [events fst] in *. rewrite IH. reflexivity.
Qed.

Lemma safePromise_events (promise : Async (list Out.t)) :
  events (safePromise promise) =
  events promise ++ match outcome promise with
                    | Rejected e => [Log Warn (errorMessage e) []]
                    | _ => []
                    end.
Proof.
  destruct promise as [t [documents|e|]]; cbn; rewrite ?app_nil_r; reflexivity.
Qed.

Lemma gather_events limit documentsList :
  (forall A (fn : Async A), limit A fn = fn) ->
  events (all (map safePromise (map (documentTask fetch this limit) documentsList))) =
  flat_map (pageEvents fetch this) documentsList.
Proof.
  intros Hlimit. rewrite all_events, !map_map, flat_map_concat_map. f_equal.
  apply map_ext. intros document. rewrite safePromise_events.
  unfold documentTask, tryReturn. rewrite Hlimit. reflexivity.
Qed.

Lemma execute_events fuel spacesList documentsList :
  outcome (getSpaces this) = Resolved spacesList ->
  outcome (getDocumentsFromSpaces fetch this fuel spacesList) = Resolved documentsList ->
  (0 < parallelismLimit this)%Z ->
  events (execute fetch this fuel) =
  events (getSpaces this)
  ++ events (getDocumentsFromSpaces fetch this fuel spacesList)
  ++ flat_map (pageEvents fetch this) documentsList.
Proof.
  intros Hspaces Hdocuments Hlimit. unfold execute.
  rewrite (bind_resolved _ _ _ Hspaces). cbn [events fst]. f_equal.
  rewrite (bind_resolved _ _ _ Hdocuments). cbn [events fst]. f_equal.
  destruct (pLimit_valid _ Hlimit) as (limit & -> & Hid). cbn [settle].
  rewrite (bind_resolved (ret limit) _ limit eq_refl). cbn [events fst app].
  rewrite events_bind, (gather_events _ _ Hid).
  rewrite (all_safePromises _ _ limit documentsList Hid). cbn. apply app_nil_r.
Qed.

Lemma getSpaces_fetches_nothing : fetched (events (getSpaces this)) = [].
Proof.
  unfold getSpaces. destruct (catalogClient this) as [client|]; [|reflexivity].
  rewrite bind_log, bind_call. cbn [events fst].
  destruct (getEntities client [spacesFilter]) as [e|items]; [reflexivity|].
  cbn [events fst]. rewrite bind_log. cbn [events fst].
  rewrite events_bind.
  change (fetched (?a :: ?b :: ?c :: ?t)) with (fetched t).
  rewrite fetched_app, (proj2 (collectSpaces_quiet items [])).
  destruct (outcome (collectSpaces items [])); [rewrite bind_log|..]; reflexivity.
Qed.

Lemma getSpaces_warns_nothing : warnings (events (getSpaces this)) = [].
Proof.
  unfold getSpaces. destruct (catalogClient this) as [client|]; [|reflexivity].
  rewrite bind_log, bind_call. cbn [events fst].
  destruct (getEntities client [spacesFilter]) as [e|items]; [reflexivity|].
  cbn [events fst]. rewrite bind_log. cbn [events fst].
  rewrite events_bind.
  change (warnings (?a :: ?b :: ?c :: ?t)) with (warnings t).
  rewrite warnings_app.
  assert (Hquiet : forall items spaces, warnings (events (collectSpaces items spaces)) = []).
  { clear. induction items as [|entity items IH]; intros spaces;
      cbn [collectSpaces]; [reflexivity|].
    destruct (annotations (metadata entity)) as [dict|]; [|reflexivity].
    destruct (lookup ANNOTATION_OVO_CONFLUENCE_SPACES dict) as [annotation|];
      rewrite bind_log; cbn [events fst]; [|reflexivity].
    apply IH. }
  rewrite Hquiet.
  destruct (outcome (collectSpaces items [])); [rewrite bind_log|..]; reflexivity.
Qed.

Lemma pageEvents_fetched document :
  fetched (pageEvents fetch this document) = [detailUrl document].
Proof.
  unfold pageEvents. rewrite fetched_app, getDocumentInfo_events.
  change (fetched (Log ?l ?m ?x :: ?t)) with (fetched t).
  rewrite get_fetched.
  destruct (outcome (getDocumentInfo fetch this document)); reflexivity.
Qed.

End ExecuteMore.

Section QuietEnumeration.

Variable fetch : Request -> Result Response.
Variable this : ConfluenceCollatorFactory.

Lemma get_resolved_quiet requestUrl data :
  outcome (get fetch this requestUrl) = Resolved data ->
  warnings (events (get fetch this requestUrl)) = [].
Proof.
  rewrite get_outcome, get_events.
  destruct (fetch (getRequest this requestUrl)) as [e|res]; [discriminate|].
  destruct (ok res); [reflexivity|destruct (text res); discriminate].
Qed.

Lemma paginate_resolved_quiet fuel requestUrl documentsList found :
  outcome (paginate fetch this fuel requestUrl documentsList) = Resolved found ->
  warnings (events (paginate fetch this fuel requestUrl documentsList)) = [].
Proof.
  revert requestUrl documentsList.
  induction fuel as [|fuel IH]; intros requestUrl documentsList; cbn [paginate];
    [discriminate|].
  rewrite outcome_bind, events_bind, warnings_app.
  destruct (outcome (get fetch this requestUrl)) as [data|e|] eqn:Hget; try discriminate.
  rewrite (get_resolved_quiet _ _ Hget). cbn [app].
  destruct data as [data|data]; [|reflexivity].
  destruct (DocList.results data); [|reflexivity].
  destruct (DocList.next (DocList._links data)) as [next|]; [|reflexivity].
  destruct (Js.truthy next); [apply IH|reflexivity].
Qed.

Lemma getDocumentsFromSpace_resolved_quiet fuel space found :
  outcome (getDocumentsFromSpace fetch this fuel space) = Resolved found ->
  warnings (events (getDocumentsFromSpace fetch this fuel space)) = [].
Proof.
  unfold getDocumentsFromSpace. rewrite bind_log. cbn [outcome events fst snd].
  apply paginate_resolved_quiet.
Qed.

Lemma getDocumentsFromSpaces_from_resolved_quiet fuel spaceKeys documentsList found :
  outcome (getDocumentsFromSpaces_from fetch this fuel spaceKeys documentsList)
  = Resolved found ->
  warnings (events (getDocumentsFromSpaces_from fetch this fuel spaceKeys documentsList))
  = [].
Proof.
  revert documentsList.
  induction spaceKeys as [|space rest IH]; intros documentsList;
    cbn [getDocumentsFromSpaces_from]; [reflexivity|].
  rewrite outcome_bind, events_bind, warnings_app.
  destruct (outcome (getDocumentsFromSpace fetch this fuel space)) as [links|e|] eqn:Hspace;
    try discriminate.
  rewrite (getDocumentsFromSpace_resolved_quiet _ _ _ Hspace). apply IH.
Qed.

End QuietEnumeration.

(** X13.  In a run whose space resolution and enumeration succeed, the
    requests are those of the enumeration followed by one detail request
    per page reference, in the order of the references, whether the page
    then succeeds, is filtered out or fails. *)
Theorem execute_fetches_each_page_once fetch this fuel spacesList documentsList :
  outcome (getSpaces this) = Resolved spacesList ->
  outcome (getDocumentsFromSpaces fetch this fuel spacesList) = Resolved documentsList ->
  (0 < parallelismLimit this)%Z ->
  fetched (events (execute fetch this fuel)) =
  fetched (events (getDocumentsFromSpaces fetch this fuel spacesList))
  ++ map detailUrl documentsList.
Proof.
  intros Hspaces Hdocuments Hlimit.
  rewrite (execute_events _ _ _ _ _ Hspaces Hdocuments Hlimit).
  rewrite !fetched_app, getSpaces_fetches_nothing. cbn [app]. f_equal.
  clear. induction documentsList as [|document rest IH]; [reflexivity|].
  cbn [flat_map map]. rewrite fetched_app, pageEvents_fetched, IH. reflexivity.
Qed.

Lemma execute_fetches_each_page_once_witness :
  fetched (events (execute Fixture.fetch Fixture.collator 2)) =
  [ "https://wiki.example/rest/api/content?limit=1000&status=current&spaceKey=ENG";
    "https://wiki.example/rest/api/content?start=2";
    "https://wiki.example/rest/api/content/1?expand=body.storage,space,ancestors,version";
    "https://wiki.example/rest/api/content/2?expand=body.storage,space,ancestors,version";
    "https://wiki.example/rest/api/content/3?expand=body.storage,space,ancestors,version" ].
Proof.
  rewrite (execute_fetches_each_page_once Fixture.fetch Fixture.collator 2 ["ENG"]
             [Fixture.selfLink "1"; Fixture.selfLink "2"; Fixture.selfLink "3"]).
  - vm_compute. reflexivity.
  - vm_compute. reflexivity.
  - vm_compute. reflexivity.
  - reflexivity.
Defined.

(** X14.  When the enumeration fails, the run aborts with the error of the
    enumeration: it yields no document and requests no page detail. *)
Theorem execute_aborts_when_enumeration_fails fetch this fuel spacesList e :
  outcome (getSpaces this) = Resolved spacesList ->
  outcome (getDocumentsFromSpaces fetch this fuel spacesList) = Rejected e ->
  outcome (execute fetch this fuel) = Rejected e
  /\ fetched (events (execute fetch this fuel)) =
     fetched (events (getDocumentsFromSpaces fetch this fuel spacesList)).
Proof.
  intros Hspaces Hdocuments. unfold execute.
  rewrite (bind_resolved _ _ _ Hspaces). cbn [outcome events fst snd].
  rewrite (bind_rejected _ _ _ Hdocuments). cbn [outcome events fst snd].
  split; [reflexivity|].
  rewrite fetched_app, getSpaces_fetches_nothing. reflexivity.
Qed.

Lemma execute_aborts_when_enumeration_fails_witness :
  outcome (execute Sample.fetch (Sample.explorer ["ENG"; "BROKEN"]) 3) =
  Rejected (Error "Request failed with 404 Not Found").
Proof.
  apply (execute_aborts_when_enumeration_fails Sample.fetch
           (Sample.explorer ["ENG"; "BROKEN"]) 3 ["ENG"; "BROKEN"]).
  - reflexivity.
  - vm_compute. reflexivity.
Defined.

(** X15.  When space resolution fails, the run aborts with its error before
    any request to the wiki. *)
Theorem execute_aborts_when_resolution_fails fetch this fuel e :
  outcome (getSpaces this) = Rejected e ->
  outcome (execute fetch this fuel) = Rejected e
  /\ fetched (events (execute fetch this fuel)) = [].
Proof.
  intros Hspaces. unfold execute.
  rewrite (bind_rejected _ _ _ Hspaces). cbn [outcome events fst snd].
  split; [reflexivity|apply getSpaces_fetches_nothing].
Qed.

Lemma execute_aborts_when_resolution_fails_witness :
  outcome (execute Fixture.fetch (Sample.withCatalog Sample.downCatalog) 2) =
  Rejected Sample.unreachable.
Proof.
  apply (execute_aborts_when_resolution_fails Fixture.fetch
           (Sample.withCatalog Sample.downCatalog) 2).
  reflexivity.
Defined.

(** X16.  In a run whose space resolution and enumeration succeed, the
    warnings are, up to the order in which the pages complete, the warnings
    of the transforms of the pages and one more warning for each page whose
    transform rejects, whose message is the message of the rejection and
    which carries nothing else.  The warnings of a transform are those of
    [get] for a response that is not ok.  So the warning of the [catch]
    inside the task, which names the page, is never logged. *)
Theorem execute_warns_per_failed_page fetch this fuel spacesList documentsList :
  outcome (getSpaces this) = Resolved spacesList ->
  outcome (getDocumentsFromSpaces fetch this fuel spacesList) = Resolved documentsList ->
  (0 < parallelismLimit this)%Z ->
  Permutation
    (warnings (events (execute fetch this fuel)))
    (flat_map
       (fun document =>
          warnings (events (getDocumentInfo fetch this document))
          ++ match outcome (getDocumentInfo fetch this document) with
             | Rejected e => [(errorMessage e, [])]
             | _ => []
             end)
       documentsList)
  /\ (forall document warning,
         In warning (warnings (events (getDocumentInfo fetch this document))) ->
         fst warning = "non-ok response from confluence").
Proof.
  intros Hspaces Hdocuments Hlimit. split.
  - rewrite (execute_events _ _ _ _ _ Hspaces Hdocuments Hlimit).
    rewrite !warnings_app, getSpaces_warns_nothing.
    unfold getDocumentsFromSpaces in *.
    rewrite (getDocumentsFromSpaces_from_resolved_quiet _ _ _ _ _ _ Hdocuments).
    cbn [app].
    assert (Heq : forall l,
               warnings (flat_map (pageEvents fetch this) l) =
               flat_map
                 (fun document =>
                    warnings (events (getDocumentInfo fetch this document))
                    ++ match outcome (getDocumentInfo fetch this document) with
                       | Rejected e => [(errorMessage e, [])]
                       | _ => []
                       end) l).
    { induction l as [|document rest IH]; [reflexivity|].
      cbn [flat_map]. rewrite warnings_app, IH. f_equal.
      unfold pageEvents. rewrite warnings_app. f_equal.
      destruct (outcome (getDocumentInfo fetch this document)); reflexivity. }
    rewrite Heq. apply Permutation_refl.
  - intros document warning. rewrite getDocumentInfo_events, get_events.
    change (warnings (Log Debug ?m ?x :: Fetch ?r :: ?t)) with (warnings t).
    destruct (fetch (getRequest this (detailUrl document))) as [e|res]; [intros []|].
    destruct (ok res); [intros []|]. destruct (text res) as [e|body]; [intros []|].
    intros [<-|[]]. reflexivity.
Qed.

Lemma execute_warns_per_failed_page_witness :
  Permutation
    (warnings (events (execute Fixture.fetch Fixture.collator 2)))
    [ ("non-ok response from confluence",
       ["https://wiki.example/rest/api/content/1?expand=body.storage,space,ancestors,version";
        "500"; ""]);
      ("Request failed with 500 Internal Server Error", []) ].
Proof.
  eapply Permutation_trans.
  - apply (execute_warns_per_failed_page Fixture.fetch Fixture.collator 2 ["ENG"]
             [Fixture.selfLink "1"; Fixture.selfLink "2"; Fixture.selfLink "3"]).
    + vm_compute. reflexivity.
    + vm_compute. reflexivity.
    + reflexivity.
  - vm_compute. apply Permutation_refl.
Defined.

(** X7 at work: the second entity of the catalog has no annotation. *)
Lemma getSpaces_errors_witness :
  exists message,
    outcome (getSpaces (Sample.withCatalog Sample.patchyCatalog))
    = Rejected (TypeError message).
Proof.
  apply (proj2 (getSpaces_errors (Sample.withCatalog Sample.patchyCatalog)
                  Sample.patchyCatalog eq_refl)
           [Fixture.annotated "Eng"] ["Eng"] Sample.bare [Fixture.annotated "Ops"]).
  - reflexivity.
  - repeat constructor; eexists; split; reflexivity.
  - reflexivity.
Defined.

(** ** Requests *)

Lemma digit_roundtrip n :
  n < 64 ->
  Base64.digitValue (Js.base64Digit n) = Some n
  /\ Base64.isPad (Js.base64Digit n) = false.
Proof.
  intros Hn.
  do 64 (destruct n as [|n]; [split; vm_compute; reflexivity|]).
  lia.
Qed.

Ltac divmod := zify; Z.to_euclidean_division_equations; nia.

Lemma base64_roundtrip bytes :
  Forall (fun b => b < 256) bytes ->
  Base64.decode (Js.base64 bytes) = Some bytes.
Proof.
  remember (List.length bytes) as n eqn:Hn. revert bytes Hn.
  induction n as [n IH] using lt_wf_ind. intros bytes Hn Hbytes.
  destruct bytes as [|a [|b [|c rest]]]; [reflexivity|..].
  - apply Forall_inv in Hbytes. cbn beta in Hbytes.
    destruct (digit_roundtrip (a / 4)) as [H0 _]; [divmod|].
    destruct (digit_roundtrip ((a mod 4) * 16)) as [H1 _]; [divmod|].
    cbn [Js.base64 Base64.decode]. rewrite H0, H1.
    replace (Base64.isPad "=") with true by reflexivity.
    do 2 f_equal. divmod.
  - pose proof (Forall_inv Hbytes) as Ha.
    pose proof (Forall_inv (Forall_inv_tail Hbytes)) as Hb. cbn beta in Ha, Hb.
    destruct (digit_roundtrip (a / 4)) as [H0 _]; [divmod|].
    destruct (digit_roundtrip ((a mod 4) * 16 + b / 16)) as [H1 _]; [divmod|].
    destruct (digit_roundtrip ((b mod 16) * 4)) as [H2 P2]; [divmod|].
    cbn [Js.base64 Base64.decode]. rewrite H0, H1, P2, H2.
    replace (Base64.isPad "=") with true by reflexivity.
    f_equal. f_equal; [divmod|]. f_equal. divmod.
  - pose proof (Forall_inv Hbytes) as Ha.
    pose proof (Forall_inv (Forall_inv_tail Hbytes)) as Hb.
    pose proof (Forall_inv (Forall_inv_tail (Forall_inv_tail Hbytes))) as Hc.
    pose proof (Forall_inv_tail (Forall_inv_tail (Forall_inv_tail Hbytes))) as Hrest.
    cbn beta in Ha, Hb, Hc.
    destruct (digit_roundtrip (a / 4)) as [H0 _]; [divmod|].
    destruct (digit_roundtrip ((a mod 4) * 16 + b / 16)) as [H1 _]; [divmod|].
    destruct (digit_roundtrip ((b mod 16) * 4 + c / 64)) as [H2 P2]; [divmod|].
    destruct (digit_roundtrip (c mod 64)) as [H3 P3]; [divmod|].
    cbn [Js.base64 Base64.decode]. rewrite H0, H1, P2, H2, P3, H3.
    rewrite (IH (List.length rest)); [|subst n; simpl; lia|reflexivity|exact Hrest].
    f_equal. f_equal; [divmod|]. f_equal; [divmod|]. f_equal. divmod.
Qed.

Lemma utf8_bytes s : Forall (fun b => b < 256) (Js.utf8 s).
Proof.
  induction s as [|c s IH]; [constructor|].
  cbn [Js.utf8]. pose proof (nat_ascii_bounded c) as Hc.
  destruct (nat_of_ascii c <? 128)%nat.
  - constructor; [exact Hc|exact IH].
  - constructor; [divmod|]. constructor; [divmod|exact IH].
Qed.

Lemma fetched_requests trace : fetched trace = map url (requests trace).
Proof.
  unfold fetched, requests.
  induction trace as [|event trace IH]; [reflexivity|].
  destruct event; cbn [flat_map app map]; rewrite IH; reflexivity.
Qed.

Lemma requests_app t1 t2 : requests (t1 ++ t2) = requests t1 ++ requests t2.
Proof. unfold requests. apply flat_map_app. Qed.

Section RequestFacts.

Variable fetch : Request -> Result Response.
Variable this : ConfluenceCollatorFactory.

Lemma getRequest_authorized requestUrl : authorized this (getRequest this requestUrl).
Proof.
  split; [reflexivity|].
  exists (Js.base64 (Js.utf8 (username (auth this) ++ ":" ++ password (auth this)))).
  split; [reflexivity|]. apply base64_roundtrip, utf8_bytes.
Qed.

Lemma fromGet_app t1 t2 : fromGet this t1 -> fromGet this t2 -> fromGet this (t1 ++ t2).
Proof.
  unfold fromGet. rewrite requests_app. intros H1 H2. apply Forall_app. split; assumption.
Qed.

Lemma fromGet_nil : fromGet this [].
Proof. constructor. Qed.

Lemma fromGet_log level message meta trace :
  fromGet this trace -> fromGet this (Log level message meta :: trace).
Proof. intros H. exact H. Qed.

Lemma get_requests requestUrl :
  requests (events (get fetch this requestUrl)) = [getRequest this requestUrl].
Proof.
  rewrite get_events.
  destruct (fetch (getRequest this requestUrl)) as [e|res]; [reflexivity|].
  destruct (ok res); [reflexivity|]. destruct (text res); reflexivity.
Qed.

Lemma get_fromGet requestUrl : fromGet this (events (get fetch this requestUrl)).
Proof.
  unfold fromGet. rewrite get_requests. constructor; [|constructor].
  exists requestUrl. reflexivity.
Qed.

Lemma paginate_fromGet fuel :
  forall requestUrl documentsList,
    fromGet this (events (paginate fetch this fuel requestUrl documentsList)).
Proof.
  induction fuel as [|fuel IH]; intros requestUrl documentsList; [apply fromGet_nil|].
  cbn [paginate]. rewrite events_bind. apply fromGet_app; [apply get_fromGet|].
  destruct (outcome (get fetch this requestUrl)) as [[data|data]|e|];
    try apply fromGet_nil.
  destruct (DocList.results data); [|apply fromGet_nil].
  destruct (DocList.next (DocList._links data)) as [next|]; [|apply fromGet_nil].
  destruct (Js.truthy next); [apply IH|apply fromGet_nil].
Qed.

Lemma getDocumentsFromSpaces_fromGet fuel spaceKeys :
  forall documentsList,
    fromGet this (events (getDocumentsFromSpaces_from fetch this fuel spaceKeys documentsList)).
Proof.
  induction spaceKeys as [|space rest IH]; intros documentsList; [apply fromGet_nil|].
  cbn [getDocumentsFromSpaces_from]. rewrite events_bind. apply fromGet_app.
  - unfold getDocumentsFromSpace. rewrite bind_log. apply fromGet_log, paginate_fromGet.
  - destruct (outcome (getDocumentsFromSpace fetch this fuel space));
      [apply IH|apply fromGet_nil|apply fromGet_nil].
Qed.

Lemma getSpaces_fromGet : fromGet this (events (getSpaces this)).
Proof.
  unfold fromGet.
  pose proof (getSpaces_fetches_nothing this) as H. rewrite fetched_requests in H.
  apply map_eq_nil in H. rewrite H. constructor.
Qed.

Lemma pageEvents_fromGet document : fromGet this (pageEvents fetch this document).
Proof.
  unfold pageEvents. apply fromGet_app.
  - rewrite getDocumentInfo_events. apply fromGet_log, get_fromGet.
  - destruct (outcome (getDocumentInfo fetch this document)); constructor.
Qed.

Lemma execute_fromGet fuel : fromGet this (events (execute fetch this fuel)).
Proof.
  unfold execute. rewrite events_bind. apply fromGet_app; [apply getSpaces_fromGet|].
  destruct (outcome (getSpaces this)) as [spacesList|e|]; try apply fromGet_nil.
  rewrite events_bind. apply fromGet_app; [apply getDocumentsFromSpaces_fromGet|].
  destruct (outcome (getDocumentsFromSpaces fetch this fuel spacesList))
    as [documentsList|e|]; try apply fromGet_nil.
  unfold pLimit. destruct (0 <? parallelismLimit this)%Z; [|apply fromGet_nil].
  cbn [settle]. rewrite events_bind. cbn [events outcome ret fst snd app].
  rewrite events_bind, gather_events by reflexivity. apply fromGet_app.
  - induction documentsList as [|document rest IH]; [apply fromGet_nil|].
    cbn [flat_map]. apply fromGet_app; [apply pageEvents_fromGet|exact IH].
  - destruct (outcome (all _)); apply fromGet_nil.
Qed.

End RequestFacts.

(** X8.  Every request that [get] or a whole run sends, whatever the
    outcome, is a GET whose only header is [Authorization]: [Basic], a
    space, and the padded base64 of the UTF-8 bytes of the user name, a
    colon and the password, which decodes back to these bytes.  A call of
    [get] sends one request, for the URL it is given. *)
Theorem every_request_is_authorized fetch this :
  (forall requestUrl,
      exists request,
        requests (events (get fetch this requestUrl)) = [request]
        /\ url request = requestUrl
        /\ authorized this request)
  /\ (forall fuel,
         Forall (authorized this) (requests (events (execute fetch this fuel)))).
Proof.
  split.
  - intros requestUrl. exists (getRequest this requestUrl).
    split; [apply get_requests|]. split; [reflexivity|apply getRequest_authorized].
  - intros fuel. pose proof (execute_fromGet fetch this fuel) as H.
    unfold fromGet in H. eapply Forall_impl; [|exact H].
    intros request (requestUrl & ->). apply getRequest_authorized.
Qed.

Example fixture_authorization :
  Base64.decode "dXNlcjpwYXNz" = Some (Js.utf8 "user:pass")
  /\ Base64.decode "dXNlcjpwYXM=" = Some (Js.utf8 "user:pas")
  /\ Base64.decode "dXNlcjpwYQ==" = Some (Js.utf8 "user:pa")
  /\ Base64.decode "dXNlcjpwYXNz=" = None.
Proof. split; [|split; [|split]]; vm_compute; reflexivity. Qed.

(** ** The page enumerator, continued *)

Section EnumerateMore.

Variable fetch : Request -> Result Response.
Variable this : ConfluenceCollatorFactory.

Lemma getDocumentsFromSpaces_from_resolved fuel spaceKeys founds :
  Forall2 (fun space found =>
             outcome (getDocumentsFromSpace fetch this fuel space) = Resolved found)
          spaceKeys founds ->
  forall documentsList,
    getDocumentsFromSpaces_from fetch this fuel spaceKeys documentsList =
    (flat_map (fun space => events (getDocumentsFromSpace fetch this fuel space)) spaceKeys,
     Resolved (documentsList ++ List.concat founds)).
Proof.
  induction 1 as [|space found spaceKeys founds Hspace _ IH]; intros documentsList;
    cbn [getDocumentsFromSpaces_from flat_map List.concat].
  - rewrite app_nil_r. reflexivity.
  - rewrite (bind_resolved _ _ _ Hspace), IH, app_assoc. reflexivity.
Qed.

Lemma getDocumentsFromSpaces_from_rejected fuel good founds bad rest e :
  Forall2 (fun space found =>
             outcome (getDocumentsFromSpace fetch this fuel space) = Resolved found)
          good founds ->
  outcome (getDocumentsFromSpace fetch this fuel bad) = Rejected e ->
  forall documentsList,
    getDocumentsFromSpaces_from fetch this fuel (good ++ bad :: rest) documentsList =
    (flat_map (fun space => events (getDocumentsFromSpace fetch this fuel space))
       (good ++ [bad]),
     Rejected e).
Proof.
  intros Hgood Hbad.
  induction Hgood as [|space found good founds Hspace _ IH]; intros documentsList;
    cbn [app getDocumentsFromSpaces_from flat_map].
  - rewrite (bind_rejected _ _ _ Hbad), app_nil_r. reflexivity.
  - rewrite (bind_resolved _ _ _ Hspace), IH. reflexivity.
Qed.

(** The loop on a page whose [next] link leads back to it. *)
Lemma paginate_cycle requestUrl page next :
  serves fetch this requestUrl page ->
  DocList.results page <> None ->
  DocList.next (DocList._links page) = Some next ->
  Js.truthy next = true ->
  (wikiUrl this ++ next)%string = requestUrl ->
  forall fuel documentsList,
    outcome (paginate fetch this fuel requestUrl documentsList) = Running
    /\ fetched (events (paginate fetch this fuel requestUrl documentsList)) =
       repeat requestUrl fuel.
Proof.
  intros Hserves Hresults Hnext Htruthy Hback.
  induction fuel as [|fuel IH]; intros documentsList; [split; reflexivity|].
  rewrite (paginate_step _ _ _ _ _ _ Hserves). cbn [outcome events fst snd].
  destruct (DocList.results page) as [results|]; [|contradiction].
  rewrite Hnext, Htruthy, Hback, fetched_app, get_fetched.
  destruct (IH (documentsList
                  ++ map (fun result => Meta.self (Meta._links result)) results))
    as [Hout Hfetched].
  rewrite Hout, Hfetched. split; reflexivity.
Qed.

Lemma paginate_broken requestUrl pages failing e :
  brokenPagination fetch this requestUrl pages failing e ->
  forall fuel documentsList,
    List.length pages < fuel ->
    outcome (paginate fetch this fuel requestUrl documentsList) = Rejected e
    /\ fetched (events (paginate fetch this fuel requestUrl documentsList)) =
       map fst pages ++ [failing].
Proof.
  induction 1 as [requestUrl e Hget
                 |requestUrl page next rest failing e Hserves Hsome Hnext Htruthy _ IH];
    intros [|fuel] documentsList Hfuel; cbn [List.length] in Hfuel; try lia.
  - cbn [paginate]. rewrite (bind_rejected _ _ _ Hget). cbn [outcome events fst snd].
    rewrite get_fetched. split; reflexivity.
  - rewrite (paginate_step _ _ _ _ _ _ Hserves). cbn [outcome events fst snd map].
    destruct (DocList.results page) as [results|]; [|contradiction].
    rewrite Hnext, Htruthy, fetched_app, get_fetched.
    destruct (IH fuel (documentsList
                         ++ map (fun result => Meta.self (Meta._links result)) results))
      as [Hout Hfetched]; [lia|].
    rewrite Hout, Hfetched. split; reflexivity.
Qed.

(** More fuel does not change a loop that has finished. *)
Lemma paginate_fuel fuel :
  forall requestUrl documentsList more,
    outcome (paginate fetch this fuel requestUrl documentsList) <> Running ->
    fuel <= more ->
    paginate fetch this more requestUrl documentsList =
    paginate fetch this fuel requestUrl documentsList.
Proof.
  induction fuel as [|fuel IH]; intros requestUrl documentsList more Hdone Hmore;
    [contradiction Hdone; reflexivity|].
  destruct more as [|more]; [lia|].
  cbn [paginate] in *. rewrite outcome_bind in Hdone.
  destruct (get fetch this requestUrl) as [t [data|e|]]; [|reflexivity|reflexivity].
  cbn [outcome snd] in Hdone. unfold bind.
  destruct data as [data|data]; [|reflexivity].
  destruct (DocList.results data); [|reflexivity].
  destruct (DocList.next (DocList._links data)) as [next|]; [|reflexivity].
  destruct (Js.truthy next); [|reflexivity].
  rewrite (IH _ _ more Hdone); [reflexivity|lia].
Qed.

Lemma getDocumentsFromSpace_fuel fuel space more :
  outcome (getDocumentsFromSpace fetch this fuel space) <> Running ->
  fuel <= more ->
  getDocumentsFromSpace fetch this more space = getDocumentsFromSpace fetch this fuel space.
Proof.
  unfold getDocumentsFromSpace. rewrite !bind_log. cbn [outcome snd].
  intros Hdone Hmore. rewrite (paginate_fuel _ _ _ _ Hdone Hmore). reflexivity.
Qed.

Lemma getDocumentsFromSpaces_from_fuel fuel spaceKeys more :
  forall documentsList,
    outcome (getDocumentsFromSpaces_from fetch this fuel spaceKeys documentsList)
    <> Running ->
    fuel <= more ->
    getDocumentsFromSpaces_from fetch this more spaceKeys documentsList =
    getDocumentsFromSpaces_from fetch this fuel spaceKeys documentsList.
Proof.
  induction spaceKeys as [|space rest IH]; intros documentsList Hdone Hmore;
    cbn [getDocumentsFromSpaces_from] in *; [reflexivity|].
  rewrite outcome_bind in Hdone.
  assert (Hspace : outcome (getDocumentsFromSpace fetch this fuel space) <> Running).
  { intros H. rewrite H in Hdone. contradiction Hdone. reflexivity. }
  rewrite (getDocumentsFromSpace_fuel _ _ _ Hspace Hmore).
  destruct (getDocumentsFromSpace fetch this fuel space) as [t [found|e|]];
    [|reflexivity|reflexivity].
  cbn [outcome snd] in Hdone. unfold bind. rewrite (IH _ Hdone Hmore). reflexivity.
Qed.

End EnumerateMore.

(** X17.  When the enumeration of every space succeeds,
    [getDocumentsFromSpaces] resolves with the page references of the spaces
    one after the other, in the order of the spaces, and explores the spaces
    in that order, each to its end before the next. *)
Theorem getDocumentsFromSpaces_concatenates fetch this fuel spaceKeys founds :
  Forall2 (fun space found =>
             outcome (getDocumentsFromSpace fetch this fuel space) = Resolved found)
          spaceKeys founds ->
  outcome (getDocumentsFromSpaces fetch this fuel spaceKeys) = Resolved (List.concat founds)
  /\ events (getDocumentsFromSpaces fetch this fuel spaceKeys) =
     flat_map (fun space => events (getDocumentsFromSpace fetch this fuel space)) spaceKeys.
Proof.
  intros H. unfold getDocumentsFromSpaces.
  rewrite (getDocumentsFromSpaces_from_resolved _ _ _ _ _ H []). split; reflexivity.
Qed.

Lemma getDocumentsFromSpaces_concatenates_witness :
  outcome (getDocumentsFromSpaces Fixture.fetch Fixture.collator 2 ["EMPTY"; "ENG"]) =
  Resolved [Fixture.selfLink "1"; Fixture.selfLink "2"; Fixture.selfLink "3"].
Proof.
  apply (getDocumentsFromSpaces_concatenates Fixture.fetch Fixture.collator 2
           ["EMPTY"; "ENG"]
           [[]; [Fixture.selfLink "1"; Fixture.selfLink "2"; Fixture.selfLink "3"]]).
  repeat constructor.
Defined.

(** X18.  When the enumeration of a space fails after the spaces before it
    succeeded, [getDocumentsFromSpaces] rejects with its error: the page
    references found so far are lost and the spaces after it are not
    explored. *)
Theorem getDocumentsFromSpaces_stops_at_first_failure fetch this fuel
    good founds bad rest e :
  Forall2 (fun space found =>
             outcome (getDocumentsFromSpace fetch this fuel space) = Resolved found)
          good founds ->
  outcome (getDocumentsFromSpace fetch this fuel bad) = Rejected e ->
  outcome (getDocumentsFromSpaces fetch this fuel (good ++ bad :: rest)) = Rejected e
  /\ events (getDocumentsFromSpaces fetch this fuel (good ++ bad :: rest)) =
     flat_map (fun space => events (getDocumentsFromSpace fetch this fuel space))
       (good ++ [bad]).
Proof.
  intros Hgood Hbad. unfold getDocumentsFromSpaces.
  rewrite (getDocumentsFromSpaces_from_rejected _ _ _ _ _ _ _ _ Hgood Hbad []).
  split; reflexivity.
Qed.

Lemma getDocumentsFromSpaces_stops_at_first_failure_witness :
  outcome (getDocumentsFromSpaces Fixture.fetch Fixture.collator 2 ["ENG"; "NOPE"; "EMPTY"])
  = Rejected (Error "Request failed with 404 Not Found")
  /\ fetched (events (getDocumentsFromSpaces Fixture.fetch Fixture.collator 2
                        ["ENG"; "NOPE"; "EMPTY"])) =
     [ "https://wiki.example/rest/api/content?limit=1000&status=current&spaceKey=ENG";
       "https://wiki.example/rest/api/content?start=2";
       "https://wiki.example/rest/api/content?limit=1000&status=current&spaceKey=NOPE" ].
Proof.
  destruct (getDocumentsFromSpaces_stops_at_first_failure Fixture.fetch Fixture.collator 2
              ["ENG"] [[Fixture.selfLink "1"; Fixture.selfLink "2"; Fixture.selfLink "3"]]
              "NOPE" ["EMPTY"] (Error "Request failed with 404 Not Found"))
    as [Hout Hevents].
  - repeat constructor.
  - vm_compute. reflexivity.
  - split; [exact Hout|]. cbn [app] in Hevents. rewrite Hevents.
    vm_compute. reflexivity.
Defined.

(** X19.  When the listing of a space has results and a [next] link that
    leads back to the listing itself, the enumeration never returns: with
    any fuel the loop is still running, having sent one request per unit of
    fuel. *)
Theorem enumeration_of_a_cycle_never_returns fetch this space page next fuel :
  serves fetch this (spaceUrl this space) page ->
  DocList.results page <> None ->
  DocList.next (DocList._links page) = Some next ->
  Js.truthy next = true ->
  (wikiUrl this ++ next)%string = spaceUrl this space ->
  outcome (getDocumentsFromSpace fetch this fuel space) = Running
  /\ List.length (fetched (events (getDocumentsFromSpace fetch this fuel space))) = fuel.
Proof.
  intros Hserves Hresults Hnext Htruthy Hback.
  unfold getDocumentsFromSpace. rewrite bind_log. cbn [outcome events fst snd].
  destruct (paginate_cycle _ _ _ _ _ Hserves Hresults Hnext Htruthy Hback fuel [])
    as [Hout Hfetched].
  split; [exact Hout|].
  change (fetched (Log ?l ?m ?x :: ?t)) with (fetched t).
  rewrite Hfetched. apply repeat_length.
Qed.

Lemma enumeration_of_a_cycle_never_returns_witness :
  outcome (getDocumentsFromSpace Fixture.fetch Fixture.collator 1000 "LOOP") = Running.
Proof.
  apply (enumeration_of_a_cycle_never_returns Fixture.fetch Fixture.collator "LOOP"
           Fixture.listLoop "/rest/api/content?limit=1000&status=current&spaceKey=LOOP").
  - eexists. repeat split; vm_compute; reflexivity.
  - discriminate.
  - reflexivity.
  - reflexivity.
  - reflexivity.
Defined.

(** X20.  When a request of the pagination of a space fails after the pages
    before it were served, the enumeration of the space rejects with the
    error of that request, having requested the served pages and the
    failing URL once each: the links of the pages already read are lost. *)
Theorem enumeration_fails_with_the_failing_page fetch this space pages failing e fuel :
  brokenPagination fetch this (spaceUrl this space) pages failing e ->
  List.length pages < fuel ->
  outcome (getDocumentsFromSpace fetch this fuel space) = Rejected e
  /\ fetched (events (getDocumentsFromSpace fetch this fuel space)) =
     map fst pages ++ [failing].
Proof.
  intros Hbroken Hfuel.
  unfold getDocumentsFromSpace. rewrite bind_log. cbn [outcome events fst snd].
  apply (paginate_broken _ _ _ _ _ _ Hbroken fuel [] Hfuel).
Qed.

Lemma enumeration_fails_with_the_failing_page_witness :
  outcome (getDocumentsFromSpace Sample.fetch Fixture.collator 2 "BROKEN") =
  Rejected (Error "Request failed with 404 Not Found")
  /\ fetched (events (getDocumentsFromSpace Sample.fetch Fixture.collator 2 "BROKEN")) =
     [ "https://wiki.example/rest/api/content?limit=1000&status=current&spaceKey=BROKEN";
       "https://wiki.example/rest/api/content?start=9" ].
Proof.
  apply (enumeration_fails_with_the_failing_page Sample.fetch Fixture.collator "BROKEN"
           [(spaceUrl Fixture.collator "BROKEN", Sample.listBroken)]
           "https://wiki.example/rest/api/content?start=9"
           (Error "Request failed with 404 Not Found") 2).
  - eapply broken_later.
    + eexists. repeat split; vm_compute; reflexivity.
    + discriminate.
    + reflexivity.
    + reflexivity.
    + apply broken_here. vm_compute. reflexivity.
  - simpl. lia.
Defined.


(** More fuel does not change a run that has finished. *)
Lemma execute_fuel fetch this fuel more :
  outcome (execute fetch this fuel) <> Running ->
  fuel <= more ->
  execute fetch this more = execute fetch this fuel.
Proof.
  unfold execute. intros Hdone Hmore.
  rewrite outcome_bind in Hdone.
  destruct (getSpaces this) as [t [spacesList|e|]]; [|reflexivity|reflexivity].
  cbn [outcome snd] in Hdone. unfold bind at 1 3.
  rewrite outcome_bind in Hdone. unfold getDocumentsFromSpaces in *.
  assert (Hspaces : outcome (getDocumentsFromSpaces_from fetch this fuel spacesList [])
                    <> Running).
  { intros H. rewrite H in Hdone. contradiction Hdone. reflexivity. }
  rewrite (getDocumentsFromSpaces_from_fuel _ _ _ _ _ _ Hspaces Hmore). reflexivity.
Qed.

(** ** The factory *)

(** X22.  With a complete configuration, [fromConfig] builds the collator
    from the four configured values and the given catalog client, and keeps
    a given parallelism limit other than 0 as it is, a negative one
    included: the limit is not checked when the collator is built. *)
Theorem fromConfig_keeps_given_values config options wiki spaceKeys user pass limit :
  getString config "confluence.wikiUrl" = inr wiki ->
  getStringArray config "confluence.spaces" = inr spaceKeys ->
  getString config "confluence.auth.username" = inr user ->
  getString config "confluence.auth.password" = inr pass ->
  given_parallelismLimit options = Some limit ->
  limit <> 0%Z ->
  fromConfig config options =
  inr {| catalogClient := given_catalogClient options;
         parallelismLimit := limit;
         wikiUrl := wiki;
         spaces := spaceKeys;
         auth := {| username := user; password := pass |} |}.
Proof.
  intros Hwiki Hspaces Huser Hpass Hlimit Hnonzero. unfold fromConfig.
  rewrite Hwiki, Hspaces, Huser, Hpass, Hlimit. unfold new, orDefault. cbn.
  apply Z.eqb_neq in Hnonzero. rewrite Hnonzero. reflexivity.
Qed.

Lemma fromConfig_keeps_given_values_witness :
  fromConfig Fixture.config
    {| given_parallelismLimit := Some (-3)%Z; given_catalogClient := Some Fixture.catalog |}
  = inr {| catalogClient := Some Fixture.catalog;
           parallelismLimit := (-3)%Z;
           wikiUrl := Fixture.wiki;
           spaces := ["ENG"];
           auth := {| username := "user"; password := "pass" |} |}.
Proof.
  apply (fromConfig_keeps_given_values Fixture.config
           {| given_parallelismLimit := Some (-3)%Z;
              given_catalogClient := Some Fixture.catalog |}
           Fixture.wiki ["ENG"] "user" "pass" (-3)%Z);
    [reflexivity|reflexivity|reflexivity|reflexivity|reflexivity|discriminate].
Defined.

(** X23.  [fromConfig] throws exactly when one of the four configuration
    reads throws, with the error of the first that does, the reads being
    made in the order wikiUrl, spaces, username, password. *)
Theorem fromConfig_throws_the_first_missing_key config options e :
  fromConfig config options = inl e <->
  getString config "confluence.wikiUrl" = inl e
  \/ (exists wiki,
         getString config "confluence.wikiUrl" = inr wiki
         /\ (getStringArray config "confluence.spaces" = inl e
             \/ exists spaceKeys,
                 getStringArray config "confluence.spaces" = inr spaceKeys
                 /\ (getString config "confluence.auth.username" = inl e
                     \/ exists user,
                         getString config "confluence.auth.username" = inr user
                         /\ getString config "confluence.auth.password" = inl e))).
Proof.
  unfold fromConfig.
  destruct (getString config "confluence.wikiUrl") as [e1|wiki].
  { split; [intros [= ->]; left; reflexivity|].
    intros [[= ->]|(w & [=] & _)]. reflexivity. }
  destruct (getStringArray config "confluence.spaces") as [e2|spaceKeys].
  { split; [intros [= ->]; right; exists wiki; auto|].
    intros [[=]|(w & _ & [[= ->]|(k & [=] & _)])]. reflexivity. }
  destruct (getString config "confluence.auth.username") as [e3|user].
  { split; [intros [= ->]; right; exists wiki; split; [reflexivity|];
            right; exists spaceKeys; auto|].
    intros [[=]|(w & _ & [[=]|(k & _ & [[= ->]|(u & [=] & _)])])]. reflexivity. }
  destruct (getString config "confluence.auth.password") as [e4|pass].
  { split; [intros [= ->]; right; exists wiki; split; [reflexivity|];
            right; exists spaceKeys; split; [reflexivity|];
            right; exists user; auto|].
    intros [[=]|(w & _ & [[=]|(k & _ & [[=]|(u & _ & [= ->])])])]. reflexivity. }
  split; [discriminate|].
  intros [[=]|(w & _ & [[=]|(k & _ & [[=]|(u & _ & [=])])])].
Qed.
